(** * Draw pass of the mol* canvas: a shallow embedding

    The development follows three source files:
    - [src/mol-canvas3d/passes/draw.ts]: the class [DrawPass] that owns the
      render targets and sequences the passes of one frame;
    - [src/mol-gl/shader/outlines.frag.ts]: the outline fragment shader;
    - [src/extensions/dnatco/ntc-tube/util.ts]: the gap test of the NtC tube.

    JavaScript objects live in a store ([Heap]) and are referred to by
    location, so that aliasing (a render target and the texture it owns, a
    uniform cell and the vector it holds) is visible.  Calls on the graphics
    context, the renderer and the stage passes are recorded as a trace of
    [Event]s.  Statements of [draw.ts] are commands of the monad [Cmd]:
    state (the store), output (the events) and exceptions ([throw]). *)

From Stdlib Require Import ZArith QArith Qabs String List Bool Lia.
From stdpp Require Import base list sets.
Import ListNotations.

Local Open Scope Z_scope.
Local Open Scope list_scope.

(** ** Objects and store *)

(** Locations are indices into the store. *)
Abbreviation loc := nat.

(** The objects of the store.  A render target has its own size and owns a
    texture; a texture has a size (0 x 0 until it is defined); a uniform is a
    [ValueCell] that refers to its current value, here always a [Vec2]. *)
Inductive Obj : Type :=
| RenderTargetObj (width height : Z) (texture : loc)
| NullRenderTargetObj
| TextureObj (width height : Z)
| Vec2Obj (x y : Z)
| ValueCellObj (value : loc)
| RenderItemObj.

Abbreviation Heap := (list Obj).

Inductive Res (A : Type) : Type :=
| Ok (a : A)
| Throw (msg : string).
Arguments Ok {A} a.
Arguments Throw {A} msg.

(** ** Calls on external collaborators *)

Record Viewport := { x : Z; y : Z; width : Z; height : Z }.

(** A camera object: its identity and the viewport read by [_render]. *)
Record ICamera := { camera_id : nat; viewport : Viewport }.

(** [Camera | StereoCamera]: [StereoCamera.is] tells the two apart. *)
Inductive CameraArg : Type :=
| MonoCamera (camera : ICamera)
| StereoCamera (left right : ICamera).

Definition Group := list nat.
Record Scene := { primitives : Group; volumes : Group }.

Definition Color := Z.

Record DebugHelper := { debug_isEnabled : bool; debug_scene : Scene }.
Record HandleHelper := { handle_isEnabled : bool; handle_scene : Scene }.
Record CameraHelper :=
  { camera_isEnabled : bool; camera_scene : Scene; camera_camera : ICamera }.
Record Helper :=
  { helper_debug : DebugHelper; helper_handle : HandleHelper; helper_camera : CameraHelper }.

Inductive Cap : Type := BLEND | DEPTH_TEST | CULL_FACE.

(** ** The objects of [draw.ts] *)

(** What [draw.ts] and the WBOIT pass read of the graphics context:
    [extensions.depthTexture], and whether "the hardware supports the required
    blend/draw-buffer features". *)
Record WebGLContext := {
  extensions_depthTexture : bool;
  WboitPass_isSupported : bool
}.

(** Modelled from the spec: [class WboitPass] of [passes/wboit.ts] is not
    among the sources.  It has the [enabled] flag that [draw.ts] reads, and
    "dedicated buffers" (the "reveal/accumulation buffer pair"). *)
Record WboitPass := { enabled : bool; buffers : list loc }.

(** Modelled from the spec: [class PostprocessingPass] of
    [passes/postprocessing.ts] is not among the sources.  [draw.ts] reads its
    [target]. *)
Record PostprocessingPass := { postprocessing_target : loc }.

(** Modelled from the spec: [class FxaaPass] of [passes/postprocessing.ts] is
    not among the sources.  [draw.ts] reads its [target]. *)
Record FxaaPass := { fxaa_target : loc }.

(** [Values<typeof DepthMergeSchema>], without the quad geometry spread in
    from [QuadValues]; the boolean define is kept by value. *)
Record DepthMergeValues := {
  tDepthPrimitives : loc;
  tDepthVolumes : loc;
  dm_uTexSize : loc;
  dPackedDepth : bool
}.

Record DepthMergeRenderable :=
  { dm_renderItem : loc; dm_values : DepthMergeValues }.

Record CopyFboValues := { tColor : loc; tDepth : loc; cp_uTexSize : loc }.

Record CopyFboRenderable :=
  { cp_renderItem : loc; cp_values : CopyFboValues }.

(** The fields of [class DrawPass]. *)
Record DrawPass := {
  drawTarget : loc;
  colorTarget : loc;
  depthTexture : loc;
  depthTexturePrimitives : loc;
  packedDepth : bool;
  depthTarget : loc;
  depthTargetPrimitives : option loc;
  depthTargetVolumes : option loc;
  depthTextureVolumes : loc;
  depthMerge : DepthMergeRenderable;
  copyFboTarget : CopyFboRenderable;
  copyFboPostprocessing : CopyFboRenderable;
  wboit : option WboitPass;
  postprocessing : PostprocessingPass;
  fxaa : FxaaPass
}.

(** [get wboitEnabled() { return !!this.wboit?.enabled; }] *)
Definition wboitEnabled (this : DrawPass) : bool :=
  match wboit this with
  | Some p => enabled p
  | None => false
  end.

(** [PostprocessingProps] and the two static predicates on it are declared in
    [passes/postprocessing.ts]; [draw.ts] only calls them, so they are an
    interface here. *)
Class Postprocessing (PostprocessingProps : Type) := {
  FxaaPass_isEnabled : PostprocessingProps -> bool;
  PostprocessingPass_isEnabled : PostprocessingProps -> bool
}.

(** ** [outlines.frag.ts]: the outline fragment shader

    GLSL [float] is an interface: the arithmetic and the comparisons the
    shader uses, and the literals it writes.  The texture fetch
    [unpackRGBAToDepth(texture2D(tDepth, coords))] is a function of the texel:
    the fragment at texel [(px, py)] has [coords = gl_FragCoord.xy / uTexSize],
    and [coords + vec2(x, y) * invTexSize] with the nearest filter of the depth
    texture is the texel [(px + x, py + y)]. *)

Class GLFloat (float : Type) := {
  lit : Q -> float;
  fadd : float -> float -> float;
  fsub : float -> float -> float;
  fmul : float -> float -> float;
  fdiv : float -> float -> float;
  fabs : float -> float;
  fge : float -> float -> bool;
  fgt : float -> float -> bool;
  fle : float -> float -> bool
}.

(** The comparisons of numbers that are not NaN: [<=] is a total preorder,
    [>=] is its converse and [>] its complement. *)
Class GLFloatOrder (float : Type) `{GLFloat float} : Prop := {
  fle_trans : forall a b c : float, fle a b = true -> fle b c = true -> fle a c = true;
  fle_total : forall a b : float, fle a b = true \/ fle b a = true;
  fge_fle : forall a b : float, fge a b = fle b a;
  fgt_fle : forall a b : float, fgt a b = negb (fle a b);
  fle_lit : forall p q : Q, Qle_bool p q = true -> fle (lit p) (lit q) = true
}.

Module Outlines.

Section Shader.

Context {float : Type} `{GLFloat float}.

(** Uniforms, the static define and the depth texture. *)
Variables uNear uFar uMaxPossibleViewZDiff : float.
Variable dOrthographic : bool.
Variable tDepth : Z -> Z -> float.

(** [packUnitIntervalToRG] comes from the [common] chunk. *)
Variable packUnitIntervalToRG : float -> float * float.

Definition perspectiveDepthToViewZ (invClipZ near far : float) : float :=
  fdiv (fmul near far) (fsub (fmul (fsub far near) invClipZ) far).

Definition orthographicDepthToViewZ (linearClipZ near far : float) : float :=
  fsub (fmul linearClipZ (fsub near far)) near.

Definition getViewZ (depth : float) : float :=
  if dOrthographic then orthographicDepthToViewZ depth uNear uFar
  else perspectiveDepthToViewZ depth uNear uFar.

Definition getDepth (coords : Z * Z) : float := tDepth (fst coords) (snd coords).

Definition isBackground (depth : float) : bool := fge depth (lit (99 # 100)).

Definition backgroundViewZ : float := fadd uFar (fmul (lit 3) uMaxPossibleViewZDiff).

(** [isBackground(selfDepth) ? backgroundViewZ : getViewZ(getDepth(coords))] *)
Definition selfViewZ (coords : Z * Z) : float :=
  if isBackground (getDepth coords) then backgroundViewZ else getViewZ (getDepth coords).

(** [isBackground(sampleDepth) ? backgroundViewZ : getViewZ(sampleDepth)] *)
Definition sampleViewZ (sampleCoords : Z * Z) : float :=
  let sampleDepth := getDepth sampleCoords in
  if isBackground sampleDepth then backgroundViewZ else getViewZ sampleDepth.

(** The offsets [(x, y)] in the order of the two [for] loops: [y] outside. *)
Definition window : list (Z * Z) :=
  flat_map (fun y => map (fun x => (x, y)) [-1; 0; 1]) [-1; 0; 1].

(** The body of the inner loop on the pair [(outline, bestDepth)]. *)
Definition sample (coords : Z * Z) (st : float * float) (xy : Z * Z) : float * float :=
  let sampleCoords := (fst coords + fst xy, snd coords + snd xy) in
  let sampleDepth := getDepth sampleCoords in
  if fgt (fabs (fsub (selfViewZ coords) (sampleViewZ sampleCoords))) uMaxPossibleViewZDiff
     && fgt (getDepth coords) sampleDepth
     && fle sampleDepth (snd st)
  then (lit 0, sampleDepth)
  else st.

(** [main] up to the last line: the final [(outline, bestDepth)]. *)
Definition main_loop (coords : Z * Z) : float * float :=
  fold_left (sample coords) window (lit 1, lit 1).

(** [gl_FragColor = vec4(outline, packUnitIntervalToRG(bestDepth), 0.0)] *)
Definition main (coords : Z * Z) : float * float * float * float :=
  let '(outline, bestDepth) := main_loop coords in
  let '(r, g) := packUnitIntervalToRG bestDepth in
  (outline, r, g, lit 0).

End Shader.

End Outlines.

(** ** Gap test of the NtC tube ([extensions/dnatco/ntc-tube/util.ts]) *)

Module NtcTube.

Section Util.

(** [SortedArray] and [SortedArray.has] are in [mol-data/int]; the element
    looked up is [undefined] ([None]) when the index is outside the array. *)
Variable SortedArray : Type.
Variable SortedArray_has : SortedArray -> option Z -> bool.

(** The fields of [DnatcoUtil.Residue] that the gap test reads. *)
Record Residue := { start : Z; end_ : Z }.

(** The fields of [Unit] that the gap test reads. *)
Record Unit := { elements : list Z; gapElements : SortedArray }.

(** [array[xI]] *)
Definition at_index (array : list Z) (xI : Z) : option Z :=
  if xI <? 0 then None else array !! Z.to_nat xI.

(** The [for] loop of [hasGapElements] from [xI] on, [n] being the number of
    iterations left before [xI] reaches [r.end]. *)
Fixpoint hasGapElements_from (unit : Unit) (n : nat) (xI : Z) : bool :=
  match n with
  | O => false
  | S n' =>
      let eI := at_index (elements unit) xI in
      if SortedArray_has (gapElements unit) eI then true
      else hasGapElements_from unit n' (xI + 1)
  end.

Definition hasGapElements (r : Residue) (unit : Unit) : bool :=
  hasGapElements_from unit (Z.to_nat (end_ r - start r)) (start r).

End Util.

Arguments elements {_} _.
Arguments gapElements {_} _.

End NtcTube.

(** ** Instances used in the examples *)

(** Exact rationals as numbers. *)
#[local] Instance Q_GLFloat : GLFloat Q := {|
  lit q := q;
  fadd := Qplus;
  fsub := Qminus;
  fmul := Qmult;
  fdiv := Qdiv;
  fabs := Qabs;
  fge a b := Qle_bool b a;
  fgt a b := negb (Qle_bool a b);
  fle a b := Qle_bool a b
|}.

(** Modelled from the spec: [PostprocessingProps] of
    [passes/postprocessing.ts] is not among the sources.  It is "a per-frame
    configuration snapshot (ambient-occlusion enabled, outline enabled,
    antialiasing enabled)"; post-processing is the ambient occlusion and the
    outline. *)
Record Props := { occlusion : bool; outline : bool; antialiasing : bool }.

(** Modelled from the spec: [FxaaPass.isEnabled] and
    [PostprocessingPass.isEnabled] on these switches. *)
#[local] Instance Props_Postprocessing : Postprocessing Props := {|
  FxaaPass_isEnabled p := antialiasing p;
  PostprocessingPass_isEnabled p := occlusion p || outline p
|}.

(** ** Concrete inputs

    Three graphics contexts and the draw passes that [new DrawPass(webgl, 800,
    600, enableWboit)] builds in an empty store (see [new_DrawPass_packed]
    and the two lemmas after it), a camera, a scene, helpers that are switched
    off, three configurations and two depth images. *)

Definition webgl_packed : WebGLContext :=
  {| extensions_depthTexture := false; WboitPass_isSupported := false |}.
Definition webgl_native : WebGLContext :=
  {| extensions_depthTexture := true; WboitPass_isSupported := true |}.
Definition webgl_packed_wboit : WebGLContext :=
  {| extensions_depthTexture := false; WboitPass_isSupported := true |}.

Definition pass_packed : DrawPass := {|
  drawTarget := 0%nat; colorTarget := 2%nat; depthTexture := 3%nat;
  depthTexturePrimitives := 5%nat; packedDepth := true; depthTarget := 4%nat;
  depthTargetPrimitives := Some 6%nat; depthTargetVolumes := Some 8%nat;
  depthTextureVolumes := 7%nat;
  depthMerge := {| dm_renderItem := 13%nat;
                   dm_values := {| tDepthPrimitives := 9%nat; tDepthVolumes := 10%nat;
                                   dm_uTexSize := 12%nat; dPackedDepth := true |} |};
  copyFboTarget := {| cp_renderItem := 22%nat;
                      cp_values := {| tColor := 18%nat; tDepth := 19%nat;
                                      cp_uTexSize := 21%nat |} |};
  copyFboPostprocessing := {| cp_renderItem := 27%nat;
                              cp_values := {| tColor := 23%nat; tDepth := 24%nat;
                                              cp_uTexSize := 26%nat |} |};
  wboit := None;
  postprocessing := {| postprocessing_target := 15%nat |};
  fxaa := {| fxaa_target := 17%nat |}
|}.

Definition heap_packed : Heap :=
  [NullRenderTargetObj; TextureObj 800 600; RenderTargetObj 800 600 1%nat;
   TextureObj 800 600; RenderTargetObj 800 600 3%nat; TextureObj 800 600;
   RenderTargetObj 800 600 5%nat; TextureObj 800 600; RenderTargetObj 800 600 7%nat;
   ValueCellObj 5%nat; ValueCellObj 7%nat; Vec2Obj 800 600; ValueCellObj 11%nat;
   RenderItemObj; TextureObj 800 600; RenderTargetObj 800 600 14%nat; TextureObj 800 600;
   RenderTargetObj 800 600 16%nat; ValueCellObj 1%nat; ValueCellObj 3%nat;
   Vec2Obj 800 600; ValueCellObj 20%nat; RenderItemObj; ValueCellObj 14%nat;
   ValueCellObj 3%nat; Vec2Obj 800 600; ValueCellObj 25%nat; RenderItemObj].

Definition pass_wboit : DrawPass := {|
  drawTarget := 0%nat; colorTarget := 2%nat; depthTexture := 3%nat;
  depthTexturePrimitives := 5%nat; packedDepth := false; depthTarget := 4%nat;
  depthTargetPrimitives := None; depthTargetVolumes := None;
  depthTextureVolumes := 6%nat;
  depthMerge := {| dm_renderItem := 11%nat;
                   dm_values := {| tDepthPrimitives := 7%nat; tDepthVolumes := 8%nat;
                                   dm_uTexSize := 10%nat; dPackedDepth := false |} |};
  copyFboTarget := {| cp_renderItem := 22%nat;
                      cp_values := {| tColor := 18%nat; tDepth := 19%nat;
                                      cp_uTexSize := 21%nat |} |};
  copyFboPostprocessing := {| cp_renderItem := 27%nat;
                              cp_values := {| tColor := 23%nat; tDepth := 24%nat;
                                              cp_uTexSize := 26%nat |} |};
  wboit := Some {| enabled := true; buffers := [12%nat; 13%nat] |};
  postprocessing := {| postprocessing_target := 15%nat |};
  fxaa := {| fxaa_target := 17%nat |}
|}.

Definition heap_wboit : Heap :=
  [NullRenderTargetObj; TextureObj 800 600; RenderTargetObj 800 600 1%nat;
   TextureObj 800 600; RenderTargetObj 800 600 3%nat; TextureObj 800 600;
   TextureObj 800 600; ValueCellObj 5%nat; ValueCellObj 6%nat; Vec2Obj 800 600;
   ValueCellObj 9%nat; RenderItemObj; TextureObj 800 600; TextureObj 800 600;
   TextureObj 800 600; RenderTargetObj 800 600 14%nat; TextureObj 800 600;
   RenderTargetObj 800 600 16%nat; ValueCellObj 1%nat; ValueCellObj 3%nat;
   Vec2Obj 800 600; ValueCellObj 20%nat; RenderItemObj; ValueCellObj 14%nat;
   ValueCellObj 3%nat; Vec2Obj 800 600; ValueCellObj 25%nat; RenderItemObj].

Definition pass_packed_wboit : DrawPass := {|
  drawTarget := 0%nat; colorTarget := 2%nat; depthTexture := 3%nat;
  depthTexturePrimitives := 5%nat; packedDepth := true; depthTarget := 4%nat;
  depthTargetPrimitives := Some 6%nat; depthTargetVolumes := Some 8%nat;
  depthTextureVolumes := 7%nat;
  depthMerge := {| dm_renderItem := 13%nat;
                   dm_values := {| tDepthPrimitives := 9%nat; tDepthVolumes := 10%nat;
                                   dm_uTexSize := 12%nat; dPackedDepth := true |} |};
  copyFboTarget := {| cp_renderItem := 24%nat;
                      cp_values := {| tColor := 20%nat; tDepth := 21%nat;
                                      cp_uTexSize := 23%nat |} |};
  copyFboPostprocessing := {| cp_renderItem := 29%nat;
                              cp_values := {| tColor := 25%nat; tDepth := 26%nat;
                                              cp_uTexSize := 28%nat |} |};
  wboit := Some {| enabled := true; buffers := [14%nat; 15%nat] |};
  postprocessing := {| postprocessing_target := 17%nat |};
  fxaa := {| fxaa_target := 19%nat |}
|}.

Definition heap_packed_wboit : Heap :=
  [NullRenderTargetObj; TextureObj 800 600; RenderTargetObj 800 600 1%nat;
   TextureObj 800 600; RenderTargetObj 800 600 3%nat; TextureObj 800 600;
   RenderTargetObj 800 600 5%nat; TextureObj 800 600; RenderTargetObj 800 600 7%nat;
   ValueCellObj 5%nat; ValueCellObj 7%nat; Vec2Obj 800 600; ValueCellObj 11%nat;
   RenderItemObj; TextureObj 800 600; TextureObj 800 600; TextureObj 800 600;
   RenderTargetObj 800 600 16%nat; TextureObj 800 600; RenderTargetObj 800 600 18%nat;
   ValueCellObj 1%nat; ValueCellObj 3%nat; Vec2Obj 800 600; ValueCellObj 22%nat;
   RenderItemObj; ValueCellObj 16%nat; ValueCellObj 3%nat; Vec2Obj 800 600;
   ValueCellObj 27%nat; RenderItemObj].

Definition view0 : ICamera :=
  {| camera_id := 0; viewport := {| x := 0; y := 0; width := 800; height := 600 |} |}.

Definition scene0 : Scene := {| primitives := [1%nat; 2%nat]; volumes := [3%nat] |}.

Definition helper_off : Helper := {|
  helper_debug := {| debug_isEnabled := false; debug_scene := scene0 |};
  helper_handle := {| handle_isEnabled := false; handle_scene := scene0 |};
  helper_camera := {| camera_isEnabled := false; camera_scene := scene0;
                      camera_camera := view0 |}
|}.

Definition props_off : Props :=
  {| occlusion := false; outline := false; antialiasing := false |}.
Definition props_outline : Props :=
  {| occlusion := false; outline := true; antialiasing := false |}.
Definition props_fxaa : Props :=
  {| occlusion := false; outline := false; antialiasing := true |}.

(** A depth image with the foreground texel [(5, 5)] at depth 1/2 in front
    of a background at depth 1, and an image of the one depth 1/2. *)
Definition dot_image (x y : Z) : Q :=
  if (x =? 5) && (y =? 5) then 1 # 2 else 1%Q.

Definition flat_image (_ _ : Z) : Q := 1 # 2.

(** [packUnitIntervalToRG] is in the [common] chunk; the examples keep the
    value in the first channel. *)
Definition pack_first (v : Q) : Q * Q := (v, 0%Q).

(** The draw pass that [new DrawPass(webgl, 800, 600, false)] builds on a
    context with depth textures (see [new_DrawPass_native]). *)
Definition pass_native : DrawPass := {|
  drawTarget := 0%nat; colorTarget := 2%nat; depthTexture := 3%nat;
  depthTexturePrimitives := 5%nat; packedDepth := false; depthTarget := 4%nat;
  depthTargetPrimitives := None; depthTargetVolumes := None;
  depthTextureVolumes := 6%nat;
  depthMerge := {| dm_renderItem := 11%nat;
                   dm_values := {| tDepthPrimitives := 7%nat; tDepthVolumes := 8%nat;
                                   dm_uTexSize := 10%nat; dPackedDepth := false |} |};
  copyFboTarget := {| cp_renderItem := 20%nat;
                      cp_values := {| tColor := 16%nat; tDepth := 17%nat;
                                      cp_uTexSize := 19%nat |} |};
  copyFboPostprocessing := {| cp_renderItem := 25%nat;
                              cp_values := {| tColor := 21%nat; tDepth := 22%nat;
                                              cp_uTexSize := 24%nat |} |};
  wboit := None;
  postprocessing := {| postprocessing_target := 13%nat |};
  fxaa := {| fxaa_target := 15%nat |}
|}.

Definition heap_native : Heap :=
  [NullRenderTargetObj; TextureObj 800 600; RenderTargetObj 800 600 1%nat;
   TextureObj 800 600; RenderTargetObj 800 600 3%nat; TextureObj 800 600;
   TextureObj 800 600; ValueCellObj 5%nat; ValueCellObj 6%nat; Vec2Obj 800 600;
   ValueCellObj 9%nat; RenderItemObj; TextureObj 800 600; RenderTargetObj 800 600 12%nat;
   TextureObj 800 600; RenderTargetObj 800 600 14%nat; ValueCellObj 1%nat;
   ValueCellObj 3%nat; Vec2Obj 800 600; ValueCellObj 18%nat; RenderItemObj;
   ValueCellObj 12%nat; ValueCellObj 3%nat; Vec2Obj 800 600; ValueCellObj 23%nat;
   RenderItemObj].

(** ** What "reports dimensions" means on the store *)

Definition texture_sized (h : Heap) (t : loc) (w hh : Z) : bool :=
  match h !! t with
  | Some (TextureObj w' h') => (w' =? w) && (h' =? hh)
  | _ => false
  end.

(** A render target and the texture it owns. *)
Definition target_sized (h : Heap) (t : loc) (w hh : Z) : bool :=
  match h !! t with
  | Some (RenderTargetObj w' h' tex) => (w' =? w) && (h' =? hh) && texture_sized h tex w hh
  | _ => false
  end.

(** A [uTexSize] uniform: the vector its cell refers to. *)
Definition uniform_sized (h : Heap) (cell : loc) (w hh : Z) : bool :=
  match h !! cell with
  | Some (ValueCellObj v) =>
      match h !! v with
      | Some (Vec2Obj x y) => (x =? w) && (y =? hh)
      | _ => false
      end
  | _ => false
  end.

Definition option_sized (h : Heap) (t : option loc) (w hh : Z) : bool :=
  match t with
  | Some t => target_sized h t w hh
  | None => true
  end.

Definition wboit_sized (h : Heap) (p : option WboitPass) (w hh : Z) : bool :=
  match p with
  | Some p => if enabled p then forallb (fun t => texture_sized h t w hh) (buffers p) else true
  | None => true
  end.

(** Every render target, texture and [uTexSize] uniform of the draw pass has
    the size [w] x [hh]. *)
Definition owned_sized (this : DrawPass) (h : Heap) (w hh : Z) : bool :=
  target_sized h (colorTarget this) w hh
  && target_sized h (depthTarget this) w hh
  && texture_sized h (depthTexture this) w hh
  && option_sized h (depthTargetPrimitives this) w hh
  && texture_sized h (depthTexturePrimitives this) w hh
  && option_sized h (depthTargetVolumes this) w hh
  && texture_sized h (depthTextureVolumes this) w hh
  && uniform_sized h (dm_uTexSize (dm_values (depthMerge this))) w hh
  && uniform_sized h (cp_uTexSize (cp_values (copyFboTarget this))) w hh
  && uniform_sized h (cp_uTexSize (cp_values (copyFboPostprocessing this))) w hh
  && wboit_sized h (wboit this) w hh
  && target_sized h (postprocessing_target (postprocessing this)) w hh
  && target_sized h (fxaa_target (fxaa this)) w hh.

Definition has_texture (h : Heap) (t : option loc) (tex : loc) : bool :=
  match t with
  | Some t =>
      match h !! t with
      | Some (RenderTargetObj _ _ tex') => Nat.eqb tex' tex
      | _ => false
      end
  | None => true
  end.

(** The depth textures are the textures of the depth targets, where there
    are such targets, as the constructor wires them. *)
Definition wired (this : DrawPass) (h : Heap) : bool :=
  has_texture h (Some (depthTarget this)) (depthTexture this)
  && has_texture h (depthTargetPrimitives this) (depthTexturePrimitives this)
  && has_texture h (depthTargetVolumes this) (depthTextureVolumes this).

(** An object with its size replaced, where it has one. *)
Definition resize (w hh : Z) (o : Obj) : Obj :=
  match o with
  | RenderTargetObj _ _ tex => RenderTargetObj w hh tex
  | TextureObj _ _ => TextureObj w hh
  | Vec2Obj _ _ => Vec2Obj w hh
  | _ => o
  end.

(** The class of an object and the references it holds, without its size. *)
Definition shape (o : Obj) : Obj := resize 0 0 o.

Definition resize_at (w hh : Z) (l : loc) (h : Heap) : Heap :=
  match h !! l with
  | Some o => <[l := resize w hh o]> h
  | None => h
  end.

Definition resize_all (w hh : Z) (ls : list loc) (h : Heap) : Heap :=
  fold_left (fun g l => resize_at w hh l g) ls h.

Definition texture_of (h : Heap) (t : loc) : loc :=
  match h !! t with
  | Some (RenderTargetObj _ _ tex) => tex
  | _ => t
  end.

Definition value_of (h : Heap) (cell : loc) : loc :=
  match h !! cell with
  | Some (ValueCellObj v) => v
  | _ => cell
  end.

Definition target_locs (h : Heap) (t : loc) : list loc := [t; texture_of h t].

(** The objects that [setSize] writes to, in the order of the writes. *)
Definition touched (this : DrawPass) (h : Heap) : list loc :=
  target_locs h (colorTarget this)
  ++ target_locs h (depthTarget this)
  ++ match depthTargetPrimitives this with
     | Some t => target_locs h t
     | None => [depthTexturePrimitives this]
     end
  ++ match depthTargetVolumes this with
     | Some t => target_locs h t
     | None => [depthTextureVolumes this]
     end
  ++ [value_of h (dm_uTexSize (dm_values (depthMerge this)));
      value_of h (cp_uTexSize (cp_values (copyFboTarget this)));
      value_of h (cp_uTexSize (cp_values (copyFboPostprocessing this)))]
  ++ match wboit this with
     | Some p => if enabled p then buffers p else []
     | None => []
     end
  ++ target_locs h (postprocessing_target (postprocessing this))
  ++ target_locs h (fxaa_target (fxaa this)).

(** * The draw pass *)

Section Draw.

Context {PostprocessingProps : Type} `{!Postprocessing PostprocessingProps}.

(** One constructor per method that [draw.ts] calls on the context, on a
    render target or texture, on the renderer, on a compute renderable and on
    the stage passes.  Arguments are those of the call; a receiver that is an
    object of the store is given by its location. *)
Inductive Event : Type :=
| RenderTarget_bind (target : loc)
| Texture_attachFramebuffer (texture : loc) (target : loc)
| WebGLContext_unbindFramebuffer
| State_disable (cap : Cap)
| State_depthMask (flag : bool)
| State_clearColor (r g b a : Z)
| Gl_clear_COLOR_BUFFER_BIT
| Gl_flush
| Renderer_clear (toBackgroundColor : bool)
| Renderer_clearDepth
| Renderer_setViewport (x y width height : Z)
| Renderer_update (camera : ICamera)
| Renderer_setTransparentBackground (flag : bool)
| Renderer_setDrawingBufferSize (width height : Z)
| Renderer_renderBlended (scene : Scene) (camera : ICamera) (depthTexture : option loc)
| Renderer_renderBlendedOpaque (group : Group) (camera : ICamera) (depthTexture : option loc)
| Renderer_renderBlendedTransparent (group : Group) (camera : ICamera) (depthTexture : option loc)
| Renderer_renderBlendedVolume (group : Group) (camera : ICamera) (depthTexture : option loc)
| Renderer_renderDepth (group : Group) (camera : ICamera) (depthTexture : option loc)
| Renderer_renderWboitOpaque (group : Group) (camera : ICamera) (depthTexture : option loc)
| Renderer_renderWboitTransparent (group : Group) (camera : ICamera) (depthTexture : option loc)
| ComputeRenderable_update (renderItem : loc)
| ComputeRenderable_render (renderItem : loc)
| PostprocessingPass_render (camera : ICamera) (toDrawingBuffer : bool)
    (backgroundColor : Color) (props : PostprocessingProps)
| WboitPass_bind
| WboitPass_render
| FxaaPass_render (camera : ICamera) (toDrawingBuffer : bool) (props : PostprocessingProps)
| DebugHelper_syncVisibility
| CameraHelper_update (camera : ICamera).

(** ** The command monad *)

Definition Cmd (A : Type) : Type := Heap -> Res A * Heap * list Event.

#[global] Instance Cmd_ret : MRet Cmd := fun _ a h => (Ok a, h, []).

#[global] Instance Cmd_bind : MBind Cmd := fun _ _ k m h =>
  match m h with
  | (Ok a, h1, t1) =>
      match k a h1 with
      | (r, h2, t2) => (r, h2, t1 ++ t2)
      end
  | (Throw msg, h1, t1) => (Throw msg, h1, t1)
  end.

Definition throw {A : Type} (msg : string) : Cmd A := fun h => (Throw msg, h, []).

Definition emit (e : Event) : Cmd unit := fun h => (Ok tt, h, [e]).

Definition when (b : bool) (c : Cmd unit) : Cmd unit :=
  if b then c else mret tt.

(** Reading a property of an object that is not there, or not of the
    expected class, is a [TypeError] in JavaScript. *)
Definition deref (l : loc) : Cmd Obj := fun h =>
  match h !! l with
  | Some o => (Ok o, h, [])
  | None => (Throw "TypeError"%string, h, [])
  end.

Definition store (l : loc) (o : Obj) : Cmd unit := fun h => (Ok tt, <[l := o]> h, []).

Definition alloc (o : Obj) : Cmd loc := fun h => (Ok (length h), h ++ [o], []).

Definition result {A : Type} (r : Res A * Heap * list Event) : Res A := fst (fst r).
Definition trace {A : Type} (r : Res A * Heap * list Event) : list Event := snd r.

(** ** Render targets, textures and uniforms

    [webgl/render-target.ts], [webgl/texture.ts], [mol-math/linear-algebra]
    and [mol-util/value-cell.ts] are not among the sources.  In the spec a
    render target "owns a color texture", its "color and depth dimensions
    always match" and it is "resized in place (never recreated)"; a texture
    "can be defined (allocated without backing target)". *)

(** Modelled from the spec: [Texture.define(width, height)] gives the
    texture its size. *)
Definition Texture_define (t : loc) (w h : Z) : Cmd unit :=
  o ← deref t;
  match o with
  | TextureObj _ _ => store t (TextureObj w h)
  | _ => throw "TypeError"
  end.

(** Modelled from the spec: [Texture.getWidth()]. *)
Definition Texture_getWidth (t : loc) : Cmd Z :=
  o ← deref t;
  match o with
  | TextureObj w _ => mret w
  | _ => throw "TypeError"
  end.

(** Modelled from the spec: [Texture.getHeight()]. *)
Definition Texture_getHeight (t : loc) : Cmd Z :=
  o ← deref t;
  match o with
  | TextureObj _ h => mret h
  | _ => throw "TypeError"
  end.

(** Modelled from the spec: [RenderTarget.texture], the texture the target
    owns. *)
Definition RenderTarget_texture (t : loc) : Cmd loc :=
  o ← deref t;
  match o with
  | RenderTargetObj _ _ tex => mret tex
  | _ => throw "TypeError"
  end.

(** Modelled from the spec: [RenderTarget.getWidth()]. *)
Definition RenderTarget_getWidth (t : loc) : Cmd Z :=
  o ← deref t;
  match o with
  | RenderTargetObj w _ _ => mret w
  | _ => throw "TypeError"
  end.

(** Modelled from the spec: [RenderTarget.getHeight()]. *)
Definition RenderTarget_getHeight (t : loc) : Cmd Z :=
  o ← deref t;
  match o with
  | RenderTargetObj _ h _ => mret h
  | _ => throw "TypeError"
  end.

(** Modelled from the spec: [RenderTarget.setSize(width, height)] resizes
    the target in place, and the texture it owns with it. *)
Definition RenderTarget_setSize (t : loc) (w h : Z) : Cmd unit :=
  o ← deref t;
  match o with
  | RenderTargetObj _ _ tex =>
      store t (RenderTargetObj w h tex);;
      Texture_define tex w h
  | _ => throw "TypeError"
  end.

(** Modelled from the spec: [webgl.createRenderTarget(width, height, ...)]
    makes a texture and the target that owns it, both of the given size. *)
Definition createRenderTarget (w h : Z) : Cmd loc :=
  tex ← alloc (TextureObj w h);
  alloc (RenderTargetObj w h tex).

(** Modelled from the spec: [createNullRenderTarget(gl)], the
    "null/presentation target". *)
Definition createNullRenderTarget : Cmd loc := alloc NullRenderTargetObj.

(** Modelled from the spec: [resources.texture('image-depth', 'depth',
    'ushort', 'nearest')], a texture that is not defined yet. *)
Definition resources_texture : Cmd loc := alloc (TextureObj 0 0).

(** Modelled from the spec: [Vec2.create(x, y)]. *)
Definition Vec2_create (x y : Z) : Cmd loc := alloc (Vec2Obj x y).

(** Modelled from the spec: [Vec2.set(out, x, y)] writes into [out] and
    returns it. *)
Definition Vec2_set (out : loc) (x y : Z) : Cmd loc :=
  o ← deref out;
  match o with
  | Vec2Obj _ _ => store out (Vec2Obj x y);; mret out
  | _ => throw "TypeError"
  end.

(** Modelled from the spec: [ValueCell.create(value)]. *)
Definition ValueCell_create (value : loc) : Cmd loc := alloc (ValueCellObj value).

(** Modelled from the spec: [cell.ref.value]. *)
Definition ValueCell_value (cell : loc) : Cmd loc :=
  o ← deref cell;
  match o with
  | ValueCellObj v => mret v
  | _ => throw "TypeError"
  end.

(** Modelled from the spec: [ValueCell.update(cell, value)]. *)
Definition ValueCell_update (cell : loc) (value : loc) : Cmd unit :=
  o ← deref cell;
  match o with
  | ValueCellObj _ => store cell (ValueCellObj value)
  | _ => throw "TypeError"
  end.

(** ** Stage passes *)

(** Modelled from the spec: [new WboitPass(webgl, width, height)].  The pass
    is enabled only if "the hardware supports the required blend/draw-buffer
    features", and then has its two buffers. *)
Definition new_WboitPass (webgl : WebGLContext) (width height : Z) : Cmd WboitPass :=
  if WboitPass_isSupported webgl then
    textureA ← alloc (TextureObj width height);
    textureB ← alloc (TextureObj width height);
    mret {| enabled := true; buffers := [textureA; textureB] |}
  else mret {| enabled := false; buffers := [] |}.

(** [Texture.define] on each texture of a list. *)
Fixpoint define_all (ts : list loc) (w h : Z) : Cmd unit :=
  match ts with
  | [] => mret tt
  | t :: ts' => Texture_define t w h;; define_all ts' w h
  end.

(** Modelled from the spec: [WboitPass.setSize(width, height)] resizes the
    buffers of the pass. *)
Definition WboitPass_setSize (p : WboitPass) (width height : Z) : Cmd unit :=
  define_all (buffers p) width height.

(** Modelled from the spec: [new PostprocessingPass(webgl, drawPass)] makes
    a target of the size of the color target of the draw pass. *)
Definition new_PostprocessingPass (colorTarget : loc) : Cmd PostprocessingPass :=
  w ← RenderTarget_getWidth colorTarget;
  h ← RenderTarget_getHeight colorTarget;
  t ← createRenderTarget w h;
  mret {| postprocessing_target := t |}.

(** Modelled from the spec: [PostprocessingPass.setSize(width, height)]
    resizes the target of the pass. *)
Definition PostprocessingPass_setSize (p : PostprocessingPass) (width height : Z) : Cmd unit :=
  RenderTarget_setSize (postprocessing_target p) width height.

(** Modelled from the spec: [new FxaaPass(webgl, drawPass)] makes a target
    of the size of the color target of the draw pass. *)
Definition new_FxaaPass (colorTarget : loc) : Cmd FxaaPass :=
  w ← RenderTarget_getWidth colorTarget;
  h ← RenderTarget_getHeight colorTarget;
  t ← createRenderTarget w h;
  mret {| fxaa_target := t |}.

(** Modelled from the spec: [FxaaPass.setSize(width, height)] resizes the
    target of the pass. *)
Definition FxaaPass_setSize (p : FxaaPass) (width height : Z) : Cmd unit :=
  RenderTarget_setSize (fxaa_target p) width height.

(** ** [draw.ts]: the compute renderables *)

Definition getDepthMergeRenderable (depthTexturePrimitives depthTextureVolumes : loc)
    (packedDepth : bool) : Cmd DepthMergeRenderable :=
  c1 ← ValueCell_create depthTexturePrimitives;
  c2 ← ValueCell_create depthTextureVolumes;
  w ← Texture_getWidth depthTexturePrimitives;
  h ← Texture_getHeight depthTexturePrimitives;
  v ← Vec2_create w h;
  c3 ← ValueCell_create v;
  let values := {| tDepthPrimitives := c1; tDepthVolumes := c2;
                   dm_uTexSize := c3; dPackedDepth := packedDepth |} in
  renderItem ← alloc RenderItemObj;
  mret {| dm_renderItem := renderItem; dm_values := values |}.


Definition getCopyFboRenderable (colorTexture depthTexture : loc) : Cmd CopyFboRenderable :=
  c1 ← ValueCell_create colorTexture;
  c2 ← ValueCell_create depthTexture;
  w ← Texture_getWidth colorTexture;
  h ← Texture_getHeight colorTexture;
  v ← Vec2_create w h;
  c3 ← ValueCell_create v;
  let values := {| tColor := c1; tDepth := c2; cp_uTexSize := c3 |} in
  renderItem ← alloc RenderItemObj;
  mret {| cp_renderItem := renderItem; cp_values := values |}.

(** ** [draw.ts]: the methods of [DrawPass] *)

(** [packedDepth ? webgl.createRenderTarget(width, height) : null] *)
Definition createDepthTarget (packed : bool) (width height : Z) : Cmd (option loc) :=
  if packed then t ← createRenderTarget width height; mret (Some t) else mret None.

(** [target ? target.texture : resources.texture(...)] *)
Definition depthTextureOf (target : option loc) : Cmd loc :=
  match target with
  | Some t => RenderTarget_texture t
  | None => resources_texture
  end.

Definition new_DrawPass (webgl : WebGLContext) (width height : Z) (enableWboit : bool)
    : Cmd DrawPass :=
  drawTarget ← createNullRenderTarget;
  colorTarget ← createRenderTarget width height;
  let packedDepth := negb (extensions_depthTexture webgl) in
  depthTarget ← createRenderTarget width height;
  depthTexture ← RenderTarget_texture depthTarget;
  depthTargetPrimitives ← createDepthTarget packedDepth width height;
  depthTargetVolumes ← createDepthTarget packedDepth width height;
  depthTexturePrimitives ← depthTextureOf depthTargetPrimitives;
  depthTextureVolumes ← depthTextureOf depthTargetVolumes;
  when (negb packedDepth)
    (Texture_define depthTexturePrimitives width height;;
     Texture_define depthTextureVolumes width height);;
  depthMerge ← getDepthMergeRenderable depthTexturePrimitives depthTextureVolumes packedDepth;
  wboit ← (if enableWboit
           then p ← new_WboitPass webgl width height; mret (Some p)
           else mret None);
  postprocessing ← new_PostprocessingPass colorTarget;
  fxaa ← new_FxaaPass colorTarget;
  colorTexture ← RenderTarget_texture colorTarget;
  depthTargetTexture ← RenderTarget_texture depthTarget;
  copyFboTarget ← getCopyFboRenderable colorTexture depthTargetTexture;
  postprocessingTexture ← RenderTarget_texture (postprocessing_target postprocessing);
  depthTargetTexture' ← RenderTarget_texture depthTarget;
  copyFboPostprocessing ← getCopyFboRenderable postprocessingTexture depthTargetTexture';
  mret {| drawTarget := drawTarget;
          colorTarget := colorTarget;
          depthTexture := depthTexture;
          depthTexturePrimitives := depthTexturePrimitives;
          packedDepth := packedDepth;
          depthTarget := depthTarget;
          depthTargetPrimitives := depthTargetPrimitives;
          depthTargetVolumes := depthTargetVolumes;
          depthTextureVolumes := depthTextureVolumes;
          depthMerge := depthMerge;
          copyFboTarget := copyFboTarget;
          copyFboPostprocessing := copyFboPostprocessing;
          wboit := wboit;
          postprocessing := postprocessing;
          fxaa := fxaa |}.

(** [ValueCell.update(cell, Vec2.set(cell.ref.value, width, height))] *)
Definition update_uTexSize (cell : loc) (width height : Z) : Cmd unit :=
  v ← ValueCell_value cell;
  v' ← Vec2_set v width height;
  ValueCell_update cell v'.

Definition setSize (this : DrawPass) (width height : Z) : Cmd unit :=
  w ← RenderTarget_getWidth (colorTarget this);
  h ← RenderTarget_getHeight (colorTarget this);
  if negb (width =? w) || negb (height =? h) then
    RenderTarget_setSize (colorTarget this) width height;;
    RenderTarget_setSize (depthTarget this) width height;;
    match depthTargetPrimitives this with
    | Some t => RenderTarget_setSize t width height
    | None => Texture_define (depthTexturePrimitives this) width height
    end;;
    match depthTargetVolumes this with
    | Some t => RenderTarget_setSize t width height
    | None => Texture_define (depthTextureVolumes this) width height
    end;;
    update_uTexSize (dm_uTexSize (dm_values (depthMerge this))) width height;;
    update_uTexSize (cp_uTexSize (cp_values (copyFboTarget this))) width height;;
    update_uTexSize (cp_uTexSize (cp_values (copyFboPostprocessing this))) width height;;
    match wboit this with
    | Some p => when (enabled p) (WboitPass_setSize p width height)
    | None => mret tt
    end;;
    PostprocessingPass_setSize (postprocessing this) width height;;
    FxaaPass_setSize (fxaa this) width height
  else mret tt.

(** [private _depthMerge()] *)
Definition _depthMerge (this : DrawPass) : Cmd unit :=
  emit (ComputeRenderable_update (dm_renderItem (depthMerge this)));;
  emit (RenderTarget_bind (depthTarget this));;
  emit (State_disable BLEND);;
  emit (State_disable DEPTH_TEST);;
  emit (State_disable CULL_FACE);;
  emit (State_depthMask false);;
  emit (State_clearColor 1 1 1 1);;
  emit Gl_clear_COLOR_BUFFER_BIT;;
  emit (ComputeRenderable_render (dm_renderItem (depthMerge this))).

(** [private _renderWboit(renderer, camera, scene, backgroundColor,
    postprocessingProps)]; the renderer is the receiver of the [Renderer_]
    events. *)
Definition _renderWboit (this : DrawPass) (camera : ICamera) (scene : Scene)
    (backgroundColor : Color) (postprocessingProps : PostprocessingProps) : Cmd unit :=
  if negb (wboitEnabled this) then throw "expected wboit to be enabled" else
  emit (RenderTarget_bind (colorTarget this));;
  emit (Renderer_clear true);;
  (* render opaque primitives *)
  emit (Texture_attachFramebuffer (depthTexturePrimitives this) (colorTarget this));;
  emit (RenderTarget_bind (colorTarget this));;
  emit Renderer_clearDepth;;
  emit (Renderer_renderWboitOpaque (primitives scene) camera None);;
  (* render opaque volumes *)
  emit (Texture_attachFramebuffer (depthTextureVolumes this) (colorTarget this));;
  emit (RenderTarget_bind (colorTarget this));;
  emit Renderer_clearDepth;;
  emit (Renderer_renderWboitOpaque (volumes scene) camera (Some (depthTexturePrimitives this)));;
  (* merge depth of opaque primitives and volumes *)
  _depthMerge this;;
  when (PostprocessingPass_isEnabled postprocessingProps)
    (emit (PostprocessingPass_render camera false backgroundColor postprocessingProps));;
  (* render transparent primitives and volumes *)
  emit WboitPass_bind;;
  emit (Renderer_renderWboitTransparent (primitives scene) camera (Some (depthTexture this)));;
  emit (Renderer_renderWboitTransparent (volumes scene) camera (Some (depthTexture this)));;
  (* evaluate wboit *)
  (if PostprocessingPass_isEnabled postprocessingProps then
     emit (Texture_attachFramebuffer (depthTexturePrimitives this)
             (postprocessing_target (postprocessing this)));;
     emit (RenderTarget_bind (postprocessing_target (postprocessing this)))
   else
     emit (Texture_attachFramebuffer (depthTexturePrimitives this) (colorTarget this));;
     emit (RenderTarget_bind (colorTarget this)));;
  emit WboitPass_render.

(** [private _renderBlended(renderer, camera, scene, toDrawingBuffer,
    postprocessingProps)] *)
Definition _renderBlended (this : DrawPass) (camera : ICamera) (scene : Scene)
    (toDrawingBuffer : bool) (postprocessingProps : PostprocessingProps) : Cmd unit :=
  (if toDrawingBuffer then
     emit WebGLContext_unbindFramebuffer
   else
     emit (RenderTarget_bind (colorTarget this));;
     when (negb (packedDepth this))
       (emit (Texture_attachFramebuffer (depthTexturePrimitives this) (colorTarget this))));;
  emit (Renderer_clear true);;
  emit (Renderer_renderBlendedOpaque (primitives scene) camera None);;
  (* do a depth pass if not rendering to drawing buffer and
     extensions.depthTexture is unsupported (i.e. depthTarget is set) *)
  match negb toDrawingBuffer, depthTargetPrimitives this with
  | true, Some t =>
      emit (RenderTarget_bind t);;
      emit (Renderer_clear false);;
      emit (Renderer_renderDepth (primitives scene) camera None);;
      emit (RenderTarget_bind (colorTarget this))
  | _, _ => mret tt
  end;;
  (* do direct-volume rendering *)
  when (negb toDrawingBuffer)
    (when (negb (packedDepth this))
       (emit (Texture_attachFramebuffer (depthTextureVolumes this) (colorTarget this));;
        emit Renderer_clearDepth);;
     emit (Renderer_renderBlendedVolume (volumes scene) camera
             (Some (depthTexturePrimitives this)));;
     (* do volume depth pass if extensions.depthTexture is unsupported *)
     match depthTargetVolumes this with
     | Some t =>
         emit (RenderTarget_bind t);;
         emit (Renderer_clear false);;
         emit (Renderer_renderDepth (volumes scene) camera
                 (Some (depthTexturePrimitives this)));;
         emit (RenderTarget_bind (colorTarget this))
     | None => mret tt
     end;;
     when (negb (packedDepth this))
       (emit (Texture_attachFramebuffer (depthTexturePrimitives this) (colorTarget this))));;
  emit (Renderer_renderBlendedTransparent (primitives scene) camera None);;
  (* merge depths from primitive and volume rendering *)
  when (negb toDrawingBuffer)
    (_depthMerge this;;
     emit (RenderTarget_bind (colorTarget this))).

(** [private _render(renderer, camera, scene, helper, toDrawingBuffer,
    backgroundColor, postprocessingProps)] *)
Definition _render (this : DrawPass) (camera : ICamera) (scene : Scene) (helper : Helper)
    (toDrawingBuffer : bool) (backgroundColor : Color)
    (postprocessingProps : PostprocessingProps) : Cmd unit :=
  let antialiasingEnabled := FxaaPass_isEnabled postprocessingProps in
  let vp := viewport camera in
  emit (Renderer_setViewport (x vp) (y vp) (width vp) (height vp));;
  emit (Renderer_update camera);;
  (if wboitEnabled this then
     _renderWboit this camera scene backgroundColor postprocessingProps
   else
     _renderBlended this camera scene (negb antialiasingEnabled && toDrawingBuffer)
       postprocessingProps);;
  (if PostprocessingPass_isEnabled postprocessingProps then
     emit (RenderTarget_bind (postprocessing_target (postprocessing this)))
   else
     emit (RenderTarget_bind (colorTarget this)));;
  when (debug_isEnabled (helper_debug helper))
    (emit DebugHelper_syncVisibility;;
     emit (Renderer_renderBlended (debug_scene (helper_debug helper)) camera None));;
  when (handle_isEnabled (helper_handle helper))
    (emit (Renderer_renderBlended (handle_scene (helper_handle helper)) camera None));;
  when (camera_isEnabled (helper_camera helper))
    (emit (CameraHelper_update camera);;
     emit (Renderer_update (camera_camera (helper_camera helper)));;
     emit (Renderer_renderBlended (camera_scene (helper_camera helper))
             (camera_camera (helper_camera helper)) None));;
  (if antialiasingEnabled then
     emit (FxaaPass_render camera toDrawingBuffer postprocessingProps)
   else if toDrawingBuffer then
     emit (RenderTarget_bind (drawTarget this));;
     if PostprocessingPass_isEnabled postprocessingProps then
       emit (ComputeRenderable_render (cp_renderItem (copyFboPostprocessing this)))
     else
       emit (ComputeRenderable_render (cp_renderItem (copyFboTarget this)))
   else mret tt);;
  emit Gl_flush.

(** [render(renderer, camera, scene, helper, toDrawingBuffer, backgroundColor,
    transparentBackground, postprocessingProps)] *)
Definition render (this : DrawPass) (camera : CameraArg) (scene : Scene) (helper : Helper)
    (toDrawingBuffer : bool) (backgroundColor : Color) (transparentBackground : bool)
    (postprocessingProps : PostprocessingProps) : Cmd unit :=
  emit (Renderer_setTransparentBackground transparentBackground);;
  w ← RenderTarget_getWidth (colorTarget this);
  h ← RenderTarget_getHeight (colorTarget this);
  emit (Renderer_setDrawingBufferSize w h);;
  match camera with
  | StereoCamera camera_left camera_right =>
      _render this camera_left scene helper toDrawingBuffer backgroundColor postprocessingProps;;
      _render this camera_right scene helper toDrawingBuffer backgroundColor postprocessingProps
  | MonoCamera camera =>
      _render this camera scene helper toDrawingBuffer backgroundColor postprocessingProps
  end.

(** [getColorTarget(postprocessingProps): RenderTarget] *)
Definition getColorTarget (this : DrawPass) (postprocessingProps : PostprocessingProps) : loc :=
  if FxaaPass_isEnabled postprocessingProps then fxaa_target (fxaa this)
  else if PostprocessingPass_isEnabled postprocessingProps then
    postprocessing_target (postprocessing this)
  else colorTarget this.

(** ** Predicates on traces *)

(** The calls that belong to the WBOIT strategy. *)
Definition is_wboit_event (e : Event) : bool :=
  match e with
  | WboitPass_bind | WboitPass_render
  | Renderer_renderWboitOpaque _ _ _ | Renderer_renderWboitTransparent _ _ _ => true
  | _ => false
  end.

(** [texture.attachFramebuffer(target.framebuffer, 'depth')] *)
Definition is_attach (e : Event) : bool :=
  match e with
  | Texture_attachFramebuffer _ _ => true
  | _ => false
  end.

Definition is_renderDepth (e : Event) : bool :=
  match e with
  | Renderer_renderDepth _ _ _ => true
  | _ => false
  end.

(** The calls on a compute renderable (depth merge, copy). *)
Definition is_compute (e : Event) : bool :=
  match e with
  | ComputeRenderable_update _ | ComputeRenderable_render _ => true
  | _ => false
  end.

(** The calls that draw transparent objects, and the binding of the WBOIT
    accumulation buffers. *)
Definition is_transparent (e : Event) : bool :=
  match e with
  | WboitPass_bind
  | Renderer_renderWboitTransparent _ _ _
  | Renderer_renderBlendedTransparent _ _ _ => true
  | _ => false
  end.

Definition is_postprocessing (e : Event) : bool :=
  match e with
  | PostprocessingPass_render _ _ _ _ => true
  | _ => false
  end.

Definition is_fxaa (e : Event) : bool :=
  match e with
  | FxaaPass_render _ _ _ => true
  | _ => false
  end.

(** A depth-only pass of [group] into [target]: the target is bound and
    cleared, and then the depth of the group is rendered. *)
Definition depth_pass (target : loc) (group : Group) (camera : ICamera)
    (depth : option loc) : list Event :=
  [RenderTarget_bind target; Renderer_clear false; Renderer_renderDepth group camera depth].

Definition has_depth_pass (target : loc) (group : Group) (tr : list Event) : Prop :=
  exists camera depth pre post, tr = pre ++ depth_pass target group camera depth ++ post.

(** The render targets of the draw pass other than the presentation
    target [drawTarget]. *)
Definition offscreen_targets (this : DrawPass) : list loc :=
  [colorTarget this; depthTarget this; postprocessing_target (postprocessing this)]
  ++ match depthTargetPrimitives this with Some t => [t] | None => [] end
  ++ match depthTargetVolumes this with Some t => [t] | None => [] end.

(** An event that, if it binds a render target, binds an offscreen one, and
    that does not bind the default framebuffer. *)
Definition is_offscreen (this : DrawPass) (e : Event) : bool :=
  match e with
  | RenderTarget_bind t => bool_decide (t ∈ offscreen_targets this)
  | WebGLContext_unbindFramebuffer => false
  | _ => true
  end.

(** The depth targets exist exactly when depth is packed, as the constructor
    makes them. *)
Definition packed_targets (this : DrawPass) : bool :=
  eqb (packedDepth this) (bool_decide (is_Some (depthTargetPrimitives this)))
  && eqb (packedDepth this) (bool_decide (is_Some (depthTargetVolumes this))).

(** ** Frames, views and bindings *)

(** The sub-cameras [render] draws, in the order it draws them. *)
Definition views (camera : CameraArg) : list ICamera :=
  match camera with
  | MonoCamera c => [c]
  | StereoCamera camera_left camera_right => [camera_left; camera_right]
  end.

Definition is_flush (e : Event) : bool :=
  match e with
  | Gl_flush => true
  | _ => false
  end.

(** The calls made for the helper overlays. *)
Definition is_helper_event (e : Event) : bool :=
  match e with
  | DebugHelper_syncVisibility | CameraHelper_update _ | Renderer_renderBlended _ _ _ => true
  | _ => false
  end.

(** The calls of [_render] for the helpers that are enabled. *)
Definition helper_calls (helper : Helper) (camera : ICamera) : list Event :=
  (if debug_isEnabled (helper_debug helper)
   then [DebugHelper_syncVisibility;
         Renderer_renderBlended (debug_scene (helper_debug helper)) camera None]
   else [])
  ++ (if handle_isEnabled (helper_handle helper)
      then [Renderer_renderBlended (handle_scene (helper_handle helper)) camera None]
      else [])
  ++ (if camera_isEnabled (helper_camera helper)
      then [CameraHelper_update camera;
            Renderer_update (camera_camera (helper_camera helper));
            Renderer_renderBlended (camera_scene (helper_camera helper))
              (camera_camera (helper_camera helper)) None]
      else []).

(** A command that returns normally and leaves the store as it is. *)
Definition returns {A : Type} (c : Cmd A) : Prop :=
  forall h : Heap, exists a tr, c h = (Ok a, h, tr).

(** The target [_render] binds after the strategy: the helpers are drawn on
    it, and without antialiasing the copy stage presents it. *)
Definition overlay_target (this : DrawPass) (props : PostprocessingProps) : loc :=
  if PostprocessingPass_isEnabled props then postprocessing_target (postprocessing this)
  else colorTarget this.

(** The copy renderable [_render] uses for a configuration. *)
Definition copy_stage (this : DrawPass) (props : PostprocessingProps) : CopyFboRenderable :=
  if PostprocessingPass_isEnabled props then copyFboPostprocessing this
  else copyFboTarget this.

(** The calls of [_render] that present a view. *)
Definition present_calls (this : DrawPass) (camera : ICamera) (toDrawingBuffer : bool)
    (props : PostprocessingProps) : list Event :=
  if FxaaPass_isEnabled props then [FxaaPass_render camera toDrawingBuffer props]
  else if toDrawingBuffer then
    [RenderTarget_bind (drawTarget this);
     ComputeRenderable_render (cp_renderItem (copy_stage this props))]
  else [].

(** The strategy [_render] dispatches to. *)
Definition strategy (this : DrawPass) (camera : ICamera) (scene : Scene)
    (toDrawingBuffer : bool) (backgroundColor : Color) (props : PostprocessingProps)
    : Cmd unit :=
  if wboitEnabled this then _renderWboit this camera scene backgroundColor props
  else _renderBlended this camera scene (negb (FxaaPass_isEnabled props) && toDrawingBuffer)
         props.

(** What is bound for drawing: nothing that [draw.ts] knows of (at the start
    of a view, and after a stage pass has rendered), the default framebuffer,
    a render target, or the buffers of the WBOIT pass.

    Modelled from the spec: [RenderTarget.bind], [webgl.unbindFramebuffer]
    and [WboitPass.bind] are not among the sources; the spec has them select
    where the rendering that follows goes ("Bind destination: the
    presentation surface directly [...], otherwise the color target", "Bind
    the WBOIT accumulation buffers; render transparent primitives").  What a
    stage pass leaves bound when it has rendered is not known. *)
Inductive Binding : Type :=
| Unbound
| DefaultFramebuffer
| Bound (target : loc)
| WboitBuffers.

Definition bind_step (b : Binding) (e : Event) : Binding :=
  match e with
  | RenderTarget_bind t => Bound t
  | WebGLContext_unbindFramebuffer => DefaultFramebuffer
  | WboitPass_bind => WboitBuffers
  | PostprocessingPass_render _ _ _ _ | FxaaPass_render _ _ _ => Unbound
  | _ => b
  end.

(** Where each drawing call of [draw.ts] is meant to land. *)
Definition draws_into (this : DrawPass) (b : Binding) (e : Event) : Prop :=
  match e with
  | Renderer_renderDepth _ _ _ =>
      exists t, b = Bound t
                /\ (depthTargetPrimitives this = Some t \/ depthTargetVolumes this = Some t)
  | ComputeRenderable_render r =>
      (r = dm_renderItem (depthMerge this) /\ b = Bound (depthTarget this))
      \/ ((r = cp_renderItem (copyFboTarget this)
           \/ r = cp_renderItem (copyFboPostprocessing this))
          /\ b = Bound (drawTarget this))
  | Renderer_renderBlendedOpaque _ _ _ | Renderer_renderBlendedTransparent _ _ _ =>
      b = Bound (colorTarget this) \/ b = DefaultFramebuffer
  | Renderer_renderBlendedVolume _ _ _ | Renderer_renderWboitOpaque _ _ _ =>
      b = Bound (colorTarget this)
  | Renderer_renderWboitTransparent _ _ _ => b = WboitBuffers
  | WboitPass_render | Renderer_renderBlended _ _ _ =>
      b = Bound (colorTarget this) \/ b = Bound (postprocessing_target (postprocessing this))
  | Renderer_clear _ | Renderer_clearDepth | Gl_clear_COLOR_BUFFER_BIT => b <> Unbound
  | _ => True
  end.

(** Every drawing call of a trace lands where it is meant to, the trace
    starting with [b] bound. *)
Fixpoint well_bound (this : DrawPass) (b : Binding) (tr : list Event) : Prop :=
  match tr with
  | [] => True
  | e :: tr' => draws_into this b e /\ well_bound this (bind_step b e) tr'
  end.

(** A uniform cell that refers to the object [v]. *)
Definition cell_holds (h : Heap) (cell v : loc) : bool :=
  match h !! cell with
  | Some (ValueCellObj v') => Nat.eqb v' v
  | _ => false
  end.

(** The textures the compute renderables read: the depth merge reads the
    primitive and the volume depth texture; each copy stage reads the color
    texture of the target it presents, and the merged depth. *)
Definition renderables_wired (this : DrawPass) (h : Heap) : bool :=
  cell_holds h (tDepthPrimitives (dm_values (depthMerge this))) (depthTexturePrimitives this)
  && cell_holds h (tDepthVolumes (dm_values (depthMerge this))) (depthTextureVolumes this)
  && eqb (dPackedDepth (dm_values (depthMerge this))) (packedDepth this)
  && cell_holds h (tColor (cp_values (copyFboTarget this)))
       (texture_of h (colorTarget this))
  && cell_holds h (tDepth (cp_values (copyFboTarget this))) (depthTexture this)
  && cell_holds h (tColor (cp_values (copyFboPostprocessing this)))
       (texture_of h (postprocessing_target (postprocessing this)))
  && cell_holds h (tDepth (cp_values (copyFboPostprocessing this))) (depthTexture this).

(** The render targets of a draw pass. *)
Definition all_targets (this : DrawPass) : list loc :=
  drawTarget this :: fxaa_target (fxaa this) :: offscreen_targets this.

(** The calls of [_depthMerge], in the order of the source: the merge
    renderable is updated, the merged-depth target is bound, blending, depth
    test and culling are switched off, the clear color is white, the target
    is cleared and the renderable is rendered. *)
Definition depthMerge_calls (this : DrawPass) : list Event :=
  [ComputeRenderable_update (dm_renderItem (depthMerge this));
   RenderTarget_bind (depthTarget this);
   State_disable BLEND; State_disable DEPTH_TEST; State_disable CULL_FACE;
   State_depthMask false; State_clearColor 1 1 1 1; Gl_clear_COLOR_BUFFER_BIT;
   ComputeRenderable_render (dm_renderItem (depthMerge this))].

(** The calls of the blended strategy that draw the scene. *)
Definition is_scene_render (e : Event) : bool :=
  match e with
  | Renderer_renderBlendedOpaque _ _ _
  | Renderer_renderBlendedVolume _ _ _
  | Renderer_renderBlendedTransparent _ _ _ => true
  | _ => false
  end.

(** Every call of a trace that draws the scene is made while the render
    target [t] is bound, the trace starting with [b] bound. *)
Fixpoint renders_into (t : loc) (b : Binding) (tr : list Event) : Prop :=
  match tr with
  | [] => True
  | e :: tr' =>
      (is_scene_render e = true -> b = Bound t) /\ renders_into t (bind_step b e) tr'
  end.

(** * Properties of the draw pass *)

(** ** The store under resizing *)

Lemma resize_resize w hh w' hh' o : resize w hh (resize w' hh' o) = resize w hh o.
Proof. destruct o; reflexivity. Qed.

Lemma shape_resize w hh o : shape (resize w hh o) = shape o.
Proof. apply resize_resize. Qed.

Lemma length_resize_at w hh l h : length (resize_at w hh l h) = length h.
Proof.
  unfold resize_at. destruct (h !! l); [apply length_insert | reflexivity].
Qed.

Lemma lookup_resize_at w hh l h l' :
  resize_at w hh l h !! l' =
  if decide (l = l') then resize w hh <$> h !! l' else h !! l'.
Proof.
  unfold resize_at. destruct (decide (l = l')) as [->|Hne].
  - destruct (h !! l') as [o|] eqn:E; [|by rewrite E].
    rewrite list_lookup_insert_eq; [done|]. by eapply lookup_lt_Some.
  - destruct (h !! l); [|done]. by rewrite list_lookup_insert_ne.
Qed.

Lemma length_resize_all w hh ls h : length (resize_all w hh ls h) = length h.
Proof.
  revert h. induction ls as [|l ls IH]; intros h; simpl; [done|].
  unfold resize_all in *. simpl. by rewrite IH, length_resize_at.
Qed.

Lemma lookup_resize_all w hh ls h l :
  resize_all w hh ls h !! l =
  if decide (l ∈ ls) then resize w hh <$> h !! l else h !! l.
Proof.
  revert h. induction ls as [|l0 ls IH]; intros h.
  - simpl. destruct (decide (l ∈ [])) as [Hin|]; [by apply elem_of_nil in Hin|done].
  - change (resize_all w hh (l0 :: ls) h) with (resize_all w hh ls (resize_at w hh l0 h)).
    rewrite IH, lookup_resize_at.
    destruct (decide (l ∈ ls)) as [Hin|Hnin], (decide (l0 = l)) as [->|Hne];
      destruct (decide (_ ∈ _ :: ls)) as [Hin'|Hnin']; try done.
    + destruct (h !! l); simpl; [by rewrite resize_resize|done].
    + exfalso. apply Hnin'. by right.
    + exfalso. apply Hnin'. by right.
    + exfalso. apply Hnin'. by left.
    + apply elem_of_cons in Hin' as [->|?]; done.
Qed.

Lemma resize_all_app w hh ls1 ls2 h :
  resize_all w hh (ls1 ++ ls2) h = resize_all w hh ls2 (resize_all w hh ls1 h).
Proof. apply fold_left_app. Qed.

Lemma shape_resize_all w hh ls h l :
  shape <$> resize_all w hh ls h !! l = shape <$> h !! l.
Proof.
  rewrite lookup_resize_all. destruct (decide (l ∈ ls)); [|done].
  destruct (h !! l); simpl; [by rewrite shape_resize|done].
Qed.

Lemma lookup_resize_all_in w hh ls h l o :
  l ∈ ls -> h !! l = Some o -> resize_all w hh ls h !! l = Some (resize w hh o).
Proof.
  intros Hin Hl. rewrite lookup_resize_all, Hl. by destruct (decide (l ∈ ls)).
Qed.

(** A cell keeps the reference it holds. *)
Lemma lookup_resize_all_cell w hh ls h c v :
  h !! c = Some (ValueCellObj v) -> resize_all w hh ls h !! c = Some (ValueCellObj v).
Proof.
  intros Hc. rewrite lookup_resize_all, Hc. by destruct (decide (c ∈ ls)).
Qed.

(** ** Running commands *)

Lemma bind_run {A B : Type} (m : Cmd A) (k : A -> Cmd B) h a h1 :
  m h = (Ok a, h1, []) -> (m ≫= k) h = k a h1.
Proof.
  intros Hm. unfold mbind, Cmd_bind. rewrite Hm.
  by destruct (k a h1) as [[r h2] t2].
Qed.

Lemma trace_bind_ok {A B : Type} (m : Cmd A) (k : A -> Cmd B) h a h1 t1 :
  m h = (Ok a, h1, t1) -> trace ((m ≫= k) h) = t1 ++ trace (k a h1).
Proof.
  intros Hm. unfold mbind, Cmd_bind. rewrite Hm.
  by destruct (k a h1) as [[r h2] t2].
Qed.

Lemma trace_bind_throw {A B : Type} (m : Cmd A) (k : A -> Cmd B) h msg h1 t1 :
  m h = (Throw msg, h1, t1) -> trace ((m ≫= k) h) = t1.
Proof. intros Hm. unfold mbind, Cmd_bind. by rewrite Hm. Qed.

Lemma deref_run h l o : h !! l = Some o -> deref l h = (Ok o, h, []).
Proof. intros Hl. unfold deref. by rewrite Hl. Qed.

Lemma Texture_define_run w hh g t :
  shape <$> g !! t = Some (TextureObj 0 0) ->
  Texture_define t w hh g = (Ok tt, resize_at w hh t g, []).
Proof.
  intros Ht. destruct (g !! t) as [[]|] eqn:E; try done.
  unfold Texture_define. rewrite (bind_run _ _ _ _ _ (deref_run _ _ _ E)).
  unfold store, resize_at. by rewrite E.
Qed.

Lemma RenderTarget_setSize_run w hh g t tex :
  shape <$> g !! t = Some (RenderTargetObj 0 0 tex) ->
  shape <$> g !! tex = Some (TextureObj 0 0) ->
  RenderTarget_setSize t w hh g = (Ok tt, resize_all w hh [t; tex] g, []).
Proof.
  intros Ht Htex. destruct (g !! t) as [[]|] eqn:E; try done.
  simpl in Ht. injection Ht as ->.
  unfold RenderTarget_setSize. rewrite (bind_run _ _ _ _ _ (deref_run _ _ _ E)).
  assert (Hstore : store t (RenderTargetObj w hh tex) g = (Ok tt, resize_at w hh t g, [])).
  { unfold store, resize_at. by rewrite E. }
  rewrite (bind_run _ _ _ _ _ Hstore).
  apply Texture_define_run.
  change (resize_at w hh t g) with (resize_all w hh [t] g).
  by rewrite shape_resize_all.
Qed.

Lemma ValueCell_value_run g c v :
  g !! c = Some (ValueCellObj v) -> ValueCell_value c g = (Ok v, g, []).
Proof.
  intros Hc. unfold ValueCell_value. by rewrite (bind_run _ _ _ _ _ (deref_run _ _ _ Hc)).
Qed.

Lemma RenderTarget_getWidth_run g t w hh tex :
  g !! t = Some (RenderTargetObj w hh tex) -> RenderTarget_getWidth t g = (Ok w, g, []).
Proof.
  intros Ht. unfold RenderTarget_getWidth. by rewrite (bind_run _ _ _ _ _ (deref_run _ _ _ Ht)).
Qed.

Lemma RenderTarget_getHeight_run g t w hh tex :
  g !! t = Some (RenderTargetObj w hh tex) -> RenderTarget_getHeight t g = (Ok hh, g, []).
Proof.
  intros Ht. unfold RenderTarget_getHeight. by rewrite (bind_run _ _ _ _ _ (deref_run _ _ _ Ht)).
Qed.

Lemma Vec2_set_run w hh g v :
  shape <$> g !! v = Some (Vec2Obj 0 0) ->
  Vec2_set v w hh g = (Ok v, resize_at w hh v g, []).
Proof.
  intros Hv. destruct (g !! v) as [[]|] eqn:E; try done.
  unfold Vec2_set. rewrite (bind_run _ _ _ _ _ (deref_run _ _ _ E)).
  unfold mbind, Cmd_bind, store, mret, Cmd_ret, resize_at. by rewrite E.
Qed.

Lemma update_uTexSize_run w hh g c v :
  g !! c = Some (ValueCellObj v) ->
  shape <$> g !! v = Some (Vec2Obj 0 0) ->
  update_uTexSize c w hh g = (Ok tt, resize_at w hh v g, []).
Proof.
  intros Hc Hv.
  assert (Hc' : resize_at w hh v g !! c = Some (ValueCellObj v)).
  { rewrite lookup_resize_at. destruct (decide (v = c)) as [->|]; [|done].
    rewrite Hc in Hv. discriminate. }
  unfold update_uTexSize.
  rewrite (bind_run _ _ _ _ _ (ValueCell_value_run _ _ _ Hc)).
  rewrite (bind_run _ _ _ _ _ (Vec2_set_run w hh _ _ Hv)).
  unfold ValueCell_update. rewrite (bind_run _ _ _ _ _ (deref_run _ _ _ Hc')).
  unfold store. by rewrite (list_insert_id _ _ _ Hc').
Qed.

Lemma define_all_run w hh ts g :
  Forall (fun t => shape <$> g !! t = Some (TextureObj 0 0)) ts ->
  define_all ts w hh g = (Ok tt, resize_all w hh ts g, []).
Proof.
  revert g. induction ts as [|t ts IH]; intros g Hts; [done|].
  apply Forall_cons in Hts as [Ht Hts]. simpl.
  rewrite (bind_run _ _ _ _ _ (Texture_define_run w hh g t Ht)).
  apply IH. eapply Forall_impl; [exact Hts|]. intros t' Ht'. simpl in Ht'.
  change (resize_at w hh t g) with (resize_all w hh [t] g).
  by rewrite shape_resize_all.
Qed.


(** ** What [owned_sized] says, object by object *)

Lemma texture_sized_spec (h : Heap) t w hh :
  texture_sized h t w hh = true <-> h !! t = Some (TextureObj w hh).
Proof.
  unfold texture_sized. split.
  - destruct (h !! t) as [[]|]; try done.
    intros [->%Z.eqb_eq ->%Z.eqb_eq]%andb_true_iff. done.
  - intros ->. by rewrite !Z.eqb_refl.
Qed.

Lemma target_sized_spec (h : Heap) t w hh :
  target_sized h t w hh = true <->
  h !! t = Some (RenderTargetObj w hh (texture_of h t))
  /\ h !! texture_of h t = Some (TextureObj w hh).
Proof.
  unfold target_sized, texture_of. split.
  - destruct (h !! t) as [[]|]; try done.
    intros [[->%Z.eqb_eq ->%Z.eqb_eq]%andb_true_iff Htex%texture_sized_spec]%andb_true_iff.
    done.
  - destruct (h !! t) as [[]|]; try (by intros [? ?]).
    intros [[= -> ->] Htex]. rewrite !Z.eqb_refl. simpl. by apply texture_sized_spec.
Qed.

Lemma uniform_sized_spec (h : Heap) c w hh :
  uniform_sized h c w hh = true <->
  h !! c = Some (ValueCellObj (value_of h c))
  /\ h !! value_of h c = Some (Vec2Obj w hh).
Proof.
  unfold uniform_sized, value_of. split.
  - destruct (h !! c) as [[]|] eqn:Ec; try done.
    destruct (h !! value) as [[]|]; try done.
    intros [->%Z.eqb_eq ->%Z.eqb_eq]%andb_true_iff. done.
  - destruct (h !! c) as [[]|] eqn:Ec; try (intros [? ?]; congruence).
    intros [_ ->]. by rewrite !Z.eqb_refl.
Qed.

Lemma texture_sized_resize_all (h : Heap) t w0 h0 w hh ls :
  texture_sized h t w0 h0 = true -> t ∈ ls ->
  texture_sized (resize_all w hh ls h) t w hh = true.
Proof.
  intros Ht%texture_sized_spec Hin. apply texture_sized_spec.
  by rewrite (lookup_resize_all_in _ _ _ _ _ _ Hin Ht).
Qed.

Lemma target_sized_resize_all (h : Heap) t w0 h0 w hh ls :
  target_sized h t w0 h0 = true -> t ∈ ls -> texture_of h t ∈ ls ->
  target_sized (resize_all w hh ls h) t w hh = true.
Proof.
  intros [Ht Htex]%target_sized_spec Hin Hin'. apply target_sized_spec.
  assert (Ht' := lookup_resize_all_in w hh _ _ _ _ Hin Ht). simpl in Ht'.
  assert (Heq : texture_of (resize_all w hh ls h) t = texture_of h t).
  { unfold texture_of at 1. by rewrite Ht'. }
  rewrite Heq. split; [done|].
  by rewrite (lookup_resize_all_in _ _ _ _ _ _ Hin' Htex).
Qed.

Lemma uniform_sized_resize_all (h : Heap) c w0 h0 w hh ls :
  uniform_sized h c w0 h0 = true -> value_of h c ∈ ls ->
  uniform_sized (resize_all w hh ls h) c w hh = true.
Proof.
  intros [Hc Hv]%uniform_sized_spec Hin. apply uniform_sized_spec.
  assert (Hc' := lookup_resize_all_cell w hh ls _ _ _ Hc).
  assert (Heq : value_of (resize_all w hh ls h) c = value_of h c).
  { unfold value_of at 1. by rewrite Hc'. }
  rewrite Heq. split; [done|].
  by rewrite (lookup_resize_all_in _ _ _ _ _ _ Hin Hv).
Qed.

Lemma has_texture_resize_all (h : Heap) t tex w hh ls :
  has_texture h t tex = true -> has_texture (resize_all w hh ls h) t tex = true.
Proof.
  destruct t as [t|]; [|done]. unfold has_texture.
  rewrite lookup_resize_all.
  destruct (h !! t) as [[]|]; try done; by destruct (decide (t ∈ ls)).
Qed.

Lemma has_texture_of (h : Heap) t tex w hh :
  has_texture h (Some t) tex = true -> target_sized h t w hh = true -> texture_of h t = tex.
Proof.
  intros Hw [Ht _]%target_sized_spec. unfold has_texture in Hw. rewrite Ht in Hw.
  by apply Nat.eqb_eq in Hw.
Qed.

(** ** [setSize] *)

Lemma target_setSize_run w hh w0 h0 ls (h : Heap) t :
  target_sized h t w0 h0 = true ->
  RenderTarget_setSize t w hh (resize_all w hh ls h)
  = (Ok tt, resize_all w hh (ls ++ target_locs h t) h, []).
Proof.
  intros [Ht Htex]%target_sized_spec. rewrite resize_all_app.
  apply RenderTarget_setSize_run; by rewrite shape_resize_all, ?Ht, ?Htex.
Qed.

Lemma texture_define_run w hh w0 h0 ls (h : Heap) t :
  texture_sized h t w0 h0 = true ->
  Texture_define t w hh (resize_all w hh ls h)
  = (Ok tt, resize_all w hh (ls ++ [t]) h, []).
Proof.
  intros Ht%texture_sized_spec. rewrite resize_all_app.
  apply Texture_define_run. by rewrite shape_resize_all, Ht.
Qed.

Lemma uniform_update_run w hh w0 h0 ls (h : Heap) c :
  uniform_sized h c w0 h0 = true ->
  update_uTexSize c w hh (resize_all w hh ls h)
  = (Ok tt, resize_all w hh (ls ++ [value_of h c]) h, []).
Proof.
  intros [Hc Hv]%uniform_sized_spec. rewrite resize_all_app.
  apply update_uTexSize_run.
  - by apply lookup_resize_all_cell.
  - by rewrite shape_resize_all, Hv.
Qed.

Lemma wboit_setSize_run w hh w0 h0 ls (h : Heap) p :
  forallb (fun t => texture_sized h t w0 h0) (buffers p) = true ->
  WboitPass_setSize p w hh (resize_all w hh ls h)
  = (Ok tt, resize_all w hh (ls ++ buffers p) h, []).
Proof.
  intros Hb. rewrite resize_all_app. apply define_all_run.
  apply Forall_forall. intros t Ht%list_elem_of_In.
  apply (proj1 (forallb_forall _ _) Hb), texture_sized_spec in Ht.
  by rewrite shape_resize_all, Ht.
Qed.

(** When the size differs from the one of the color target, [setSize] writes
    the new size into the objects of [touched], and nothing else. *)
Lemma setSize_run this (h : Heap) w0 h0 width height :
  owned_sized this h w0 h0 = true ->
  (width =? w0) && (height =? h0) = false ->
  setSize this width height h
  = (Ok tt, resize_all width height (touched this h) h, []).
Proof.
  unfold owned_sized. rewrite !andb_true_iff.
  intros [[[[[[[[[[[[Hc Hd] Hdt] Hp] Hpt] Hv] Hvt] Hu1] Hu2] Hu3] Hw] Hpp] Hfx] Hne.
  unfold setSize.
  pose proof (proj1 (target_sized_spec _ _ _ _) Hc) as [Hc1 _].
  rewrite (bind_run _ _ _ _ _ (RenderTarget_getWidth_run _ _ _ _ _ Hc1)).
  rewrite (bind_run _ _ _ _ _ (RenderTarget_getHeight_run _ _ _ _ _ Hc1)).
  replace (negb (width =? w0) || negb (height =? h0)) with true
    by (by rewrite <- negb_andb, Hne).
  change h with (resize_all width height [] h) at 1.
  rewrite (bind_run _ _ _ _ _ (target_setSize_run _ _ _ _ _ _ _ Hc)).
  rewrite (bind_run _ _ _ _ _ (target_setSize_run _ _ _ _ _ _ _ Hd)).
  assert (Hstep3 : forall ls,
    match depthTargetPrimitives this with
    | Some t => RenderTarget_setSize t width height
    | None => Texture_define (depthTexturePrimitives this) width height
    end (resize_all width height ls h)
    = (Ok tt, resize_all width height
                (ls ++ match depthTargetPrimitives this with
                       | Some t => target_locs h t
                       | None => [depthTexturePrimitives this]
                       end) h, [])).
  { intros ls. destruct (depthTargetPrimitives this) as [t|].
    - by eapply target_setSize_run.
    - by eapply texture_define_run. }
  assert (Hstep4 : forall ls,
    match depthTargetVolumes this with
    | Some t => RenderTarget_setSize t width height
    | None => Texture_define (depthTextureVolumes this) width height
    end (resize_all width height ls h)
    = (Ok tt, resize_all width height
                (ls ++ match depthTargetVolumes this with
                       | Some t => target_locs h t
                       | None => [depthTextureVolumes this]
                       end) h, [])).
  { intros ls. destruct (depthTargetVolumes this) as [t|].
    - by eapply target_setSize_run.
    - by eapply texture_define_run. }
  assert (Hstep8 : forall ls,
    match wboit this with
    | Some p => when (enabled p) (WboitPass_setSize p width height)
    | None => mret tt
    end (resize_all width height ls h)
    = (Ok tt, resize_all width height
                (ls ++ match wboit this with
                       | Some p => if enabled p then buffers p else []
                       | None => []
                       end) h, [])).
  { intros ls. unfold wboit_sized in Hw.
    destruct (wboit this) as [p|]; [destruct (enabled p)|]; simpl;
      rewrite ?app_nil_r; try done.
    by eapply wboit_setSize_run. }
  rewrite (bind_run _ _ _ _ _ (Hstep3 _)), (bind_run _ _ _ _ _ (Hstep4 _)).
  rewrite (bind_run _ _ _ _ _ (uniform_update_run _ _ _ _ _ _ _ Hu1)).
  rewrite (bind_run _ _ _ _ _ (uniform_update_run _ _ _ _ _ _ _ Hu2)).
  rewrite (bind_run _ _ _ _ _ (uniform_update_run _ _ _ _ _ _ _ Hu3)).
  rewrite (bind_run _ _ _ _ _ (Hstep8 _)).
  unfold PostprocessingPass_setSize, FxaaPass_setSize.
  rewrite (bind_run _ _ _ _ _ (target_setSize_run _ _ _ _ _ _ _ Hpp)).
  rewrite (target_setSize_run _ _ _ _ _ _ _ Hfx).
  unfold touched. rewrite <- !app_assoc. reflexivity.
Qed.

Lemma setSize_same this (h : Heap) w0 h0 :
  owned_sized this h w0 h0 = true ->
  setSize this w0 h0 h = (Ok tt, h, []).
Proof.
  unfold owned_sized. rewrite !andb_true_iff.
  intros [[[[[[[[[[[[[Hc _]%target_sized_spec _] _] _] _] _] _] _] _] _] _] _] _].
  unfold setSize.
  rewrite (bind_run _ _ _ _ _ (RenderTarget_getWidth_run _ _ _ _ _ Hc)).
  rewrite (bind_run _ _ _ _ _ (RenderTarget_getHeight_run _ _ _ _ _ Hc)).
  by rewrite !Z.eqb_refl.
Qed.

Lemma owned_sized_resize_all this (h : Heap) w0 h0 width height :
  wired this h = true ->
  owned_sized this h w0 h0 = true ->
  owned_sized this (resize_all width height (touched this h) h) width height = true.
Proof.
  unfold wired, owned_sized. rewrite !andb_true_iff.
  intros [[Wd Wp] Wv] [[[[[[[[[[[[Hc Hd] Hdt] Hp] Hpt] Hv] Hvt] Hu1] Hu2] Hu3] Hw] Hpp] Hfx].
  pose proof (has_texture_of _ _ _ _ _ Wd Hd) as Ed.
  assert (Ep : match depthTargetPrimitives this with
               | Some t => target_sized h t w0 h0 = true
                           /\ texture_of h t = depthTexturePrimitives this
               | None => True
               end).
  { destruct (depthTargetPrimitives this) as [t|]; [|done].
    split; [done|]. by eapply has_texture_of. }
  assert (Ev : match depthTargetVolumes this with
               | Some t => target_sized h t w0 h0 = true
                           /\ texture_of h t = depthTextureVolumes this
               | None => True
               end).
  { destruct (depthTargetVolumes this) as [t|]; [|done].
    split; [done|]. by eapply has_texture_of. }
  repeat split.
  - eapply target_sized_resize_all; [done| |]; unfold touched, target_locs; set_solver.
  - eapply target_sized_resize_all; [done| |]; unfold touched, target_locs; set_solver.
  - eapply texture_sized_resize_all; [done|]. unfold touched, target_locs; set_solver.
  - unfold option_sized, touched, target_locs.
    destruct (depthTargetPrimitives this) as [t|]; [|done]. destruct Ep as [Ep1 Ep2].
    eapply target_sized_resize_all; [apply Ep1| |]; set_solver.
  - eapply texture_sized_resize_all; [done|]. unfold touched, target_locs.
    destruct (depthTargetPrimitives this) as [t|]; [destruct Ep as [_ Ep2]|]; set_solver.
  - unfold option_sized, touched, target_locs.
    destruct (depthTargetVolumes this) as [t|]; [|done]. destruct Ev as [Ev1 Ev2].
    eapply target_sized_resize_all; [apply Ev1| |]; set_solver.
  - eapply texture_sized_resize_all; [done|]. unfold touched, target_locs.
    destruct (depthTargetVolumes this) as [t|]; [destruct Ev as [_ Ev2]|]; set_solver.
  - eapply uniform_sized_resize_all; [done|]. unfold touched; set_solver.
  - eapply uniform_sized_resize_all; [done|]. unfold touched; set_solver.
  - eapply uniform_sized_resize_all; [done|]. unfold touched; set_solver.
  - unfold wboit_sized in *. destruct (wboit this) as [p|] eqn:E; [|done].
    destruct (enabled p) eqn:E'; [|done].
    apply forallb_forall. intros t Ht.
    eapply texture_sized_resize_all.
    + by apply (proj1 (forallb_forall _ _) Hw).
    + apply list_elem_of_In in Ht. unfold touched. rewrite E, E'. set_solver.
  - eapply target_sized_resize_all; [done| |]; unfold touched, target_locs; set_solver.
  - eapply target_sized_resize_all; [done| |]; unfold touched, target_locs; set_solver.
Qed.

(** C2. On a draw pass whose targets, textures and [uTexSize] uniforms all
    have the current size [w0] x [h0] and are wired as the constructor wires
    them, [setSize(width, height)] returns normally and then every one of them
    reports [width] x [height]; no object is allocated and every object keeps
    its class and the references it holds; and when [width] x [height] is the
    current size the store is left as it is. *)
Theorem setSize_correct this (h : Heap) w0 h0 width height :
  wired this h = true ->
  owned_sized this h w0 h0 = true ->
  exists h' : Heap,
    setSize this width height h = (Ok tt, h', [])
    /\ owned_sized this h' width height = true
    /\ wired this h' = true
    /\ length h' = length h
    /\ (forall l, shape <$> h' !! l = shape <$> h !! l)
    /\ (width = w0 -> height = h0 -> h' = h).
Proof.
  intros Hwired Hsized.
  destruct ((width =? w0) && (height =? h0)) eqn:Hcmp.
  - apply andb_true_iff in Hcmp as [->%Z.eqb_eq ->%Z.eqb_eq].
    exists h. by rewrite (setSize_same _ _ _ _ Hsized).
  - exists (resize_all width height (touched this h) h).
    rewrite (setSize_run _ _ _ _ _ _ Hsized Hcmp).
    split; [done|]. split; [by eapply owned_sized_resize_all|].
    split; [|split; [apply length_resize_all|split; [intros l; apply shape_resize_all|]]].
    + unfold wired in *. rewrite !andb_true_iff in *.
      destruct Hwired as [[? ?] ?]. repeat split; by apply has_texture_resize_all.
    + intros -> ->. by rewrite !Z.eqb_refl in Hcmp.
Qed.

(** ** Traces *)

Lemma _depthMerge_run this (h : Heap) :
  _depthMerge this h =
  (Ok tt, h,
   [ComputeRenderable_update (dm_renderItem (depthMerge this));
    RenderTarget_bind (depthTarget this);
    State_disable BLEND; State_disable DEPTH_TEST; State_disable CULL_FACE;
    State_depthMask false; State_clearColor 1 1 1 1; Gl_clear_COLOR_BUFFER_BIT;
    ComputeRenderable_render (dm_renderItem (depthMerge this))]).
Proof. reflexivity. Qed.

(** Finds the prefix [pre] of a computed trace for a goal
    [exists pre, tr = pre ++ rest /\ _]. *)
Ltac find_prefix acc l :=
  first
    [ exists acc; split; [reflexivity|]
    | lazymatch l with
      | ?e :: ?l' => find_prefix (acc ++ [e]) l'
      end ].

Ltac split_trace :=
  lazymatch goal with
  | |- exists pre, ?tr = _ /\ _ =>
      let l := eval cbv in tr in find_prefix (@nil Event) l
  end.

(** C6. In the blended strategy the depth merge ([_depthMerge]: the merge
    renderable rendered into the merged-depth target), followed by the
    rebinding of the color target, is what comes after the rendering of the
    transparent primitives exactly when the strategy does not render straight
    to the drawing buffer; nothing before the transparent primitives calls a
    compute renderable, and with [toDrawingBuffer] the strategy ends with the
    transparent primitives. *)
Theorem _renderBlended_depthMerge this camera scene toDrawingBuffer props (h : Heap) :
  _depthMerge this h = (Ok tt, h, depthMerge_calls this)
  /\ exists pre,
       trace (_renderBlended this camera scene toDrawingBuffer props h)
       = pre
         ++ [Renderer_renderBlendedTransparent (primitives scene) camera None]
         ++ (if toDrawingBuffer then []
             else depthMerge_calls this ++ [RenderTarget_bind (colorTarget this)])
       /\ Forall (fun e => is_compute e = false) pre.
Proof.
  split; [reflexivity|].
  destruct toDrawingBuffer, (packedDepth this) eqn:Ep,
    (depthTargetPrimitives this) eqn:E1, (depthTargetVolumes this) eqn:E2;
    unfold _renderBlended; rewrite ?Ep, ?E1, ?E2;
    split_trace; repeat constructor.
Qed.

(** ** Properties of every event of a trace *)

Section Safety.

Variable P : Event -> Prop.

Lemma Forall_trace_bind {A B : Type} (m : Cmd A) (k : A -> Cmd B) (h : Heap) :
  Forall P (trace (m h)) ->
  (forall a h', Forall P (trace (k a h'))) ->
  Forall P (trace ((m ≫= k) h)).
Proof.
  intros Hm Hk. unfold mbind, Cmd_bind.
  destruct (m h) as [[[a|msg] h1] t1]; [|done].
  specialize (Hk a h1). destruct (k a h1) as [[r h2] t2].
  apply Forall_app. by split.
Qed.

Lemma Forall_trace_emit e (h : Heap) : P e -> Forall P (trace (emit e h)).
Proof. intros He. by constructor. Qed.

Lemma Forall_trace_ret {A : Type} (a : A) (h : Heap) :
  Forall P (trace (mret (M := Cmd) a h)).
Proof. constructor. Qed.

Lemma Forall_trace_when b (c : Cmd unit) (h : Heap) :
  Forall P (trace (c h)) -> Forall P (trace (when b c h)).
Proof. destruct b; [done|constructor]. Qed.

Lemma Forall_trace_getWidth t (h : Heap) : Forall P (trace (RenderTarget_getWidth t h)).
Proof.
  unfold RenderTarget_getWidth, mbind, Cmd_bind, deref.
  destruct (h !! t) as [[]|]; constructor.
Qed.

Lemma Forall_trace_getHeight t (h : Heap) : Forall P (trace (RenderTarget_getHeight t h)).
Proof.
  unfold RenderTarget_getHeight, mbind, Cmd_bind, deref.
  destruct (h !! t) as [[]|]; constructor.
Qed.

End Safety.

(** Splits a goal on all events of a trace along the structure of the
    command. *)
Ltac safety :=
  repeat
    lazymatch goal with
    | |- Forall _ (trace ((_ ≫= _) _)) => apply Forall_trace_bind; [|intros ? ?]
    | |- Forall _ (trace (emit _ _)) => apply Forall_trace_emit; try reflexivity
    | |- Forall _ (trace (mret _ _)) => apply Forall_trace_ret
    | |- Forall _ (trace (when _ _ _)) => apply Forall_trace_when
    | |- Forall _ (trace (RenderTarget_getWidth _ _)) => apply Forall_trace_getWidth
    | |- Forall _ (trace (RenderTarget_getHeight _ _)) => apply Forall_trace_getHeight
    | |- Forall _ (trace ((if ?b then _ else _) _)) => destruct b
    | |- Forall _ (trace (match ?o with Some _ => _ | None => _ end _)) => destruct o
    | |- Forall _ (trace (match ?c with MonoCamera _ => _ | StereoCamera _ _ => _ end _)) =>
        destruct c
    end.

Lemma _depthMerge_no_wboit this (h : Heap) :
  Forall (fun e => is_wboit_event e = false) (trace (_depthMerge this h)).
Proof. unfold _depthMerge. safety. Qed.

Lemma _renderBlended_no_wboit this camera scene toDrawingBuffer props (h : Heap) :
  Forall (fun e => is_wboit_event e = false)
    (trace (_renderBlended this camera scene toDrawingBuffer props h)).
Proof.
  unfold _renderBlended. destruct toDrawingBuffer; simpl negb; safety;
    apply _depthMerge_no_wboit.
Qed.

Lemma _render_no_wboit this camera scene helper toDrawingBuffer backgroundColor props
    (h : Heap) :
  wboitEnabled this = false ->
  Forall (fun e => is_wboit_event e = false)
    (trace (_render this camera scene helper toDrawingBuffer backgroundColor props h)).
Proof.
  intros Hw. unfold _render. rewrite Hw. safety. apply _renderBlended_no_wboit.
Qed.

(** The part of [_render] before the strategy and the part after it. *)
Lemma _render_blended_trace this camera scene helper toDrawingBuffer backgroundColor props
    (h : Heap) :
  wboitEnabled this = false ->
  exists post,
    trace (_render this camera scene helper toDrawingBuffer backgroundColor props h)
    = [Renderer_setViewport (x (viewport camera)) (y (viewport camera))
         (width (viewport camera)) (height (viewport camera));
       Renderer_update camera]
      ++ trace (_renderBlended this camera scene
                  (negb (FxaaPass_isEnabled props) && toDrawingBuffer) props h)
      ++ post.
Proof.
  intros Hw. unfold _render. rewrite Hw.
  rewrite (trace_bind_ok _ _ h tt h _ eq_refl), (trace_bind_ok _ _ h tt h _ eq_refl).
  destruct (_renderBlended _ _ _ _ _ h) as [[[[]|msg] h1] t1] eqn:E.
  - rewrite (trace_bind_ok _ _ _ _ _ _ E). simpl. eauto.
  - rewrite (trace_bind_throw _ _ _ _ _ _ E). exists []. simpl. by rewrite app_nil_r.
Qed.

(** C3. On a draw pass with [wboitEnabled = false], for a mono or a stereo
    camera and any scene, helper and props, no call of [render] reaches
    [wboit.render()] or any other call of the WBOIT strategy; and every view
    is rendered by the blended strategy, between the setting of the viewport
    and the rest of [_render]. *)
Theorem render_never_wboit this camera scene helper toDrawingBuffer backgroundColor
    transparentBackground props (h : Heap) :
  wboitEnabled this = false ->
  (WboitPass_render ∉ trace (render this camera scene helper toDrawingBuffer backgroundColor
                               transparentBackground props h))
  /\ Forall (fun e => is_wboit_event e = false)
       (trace (render this camera scene helper toDrawingBuffer backgroundColor
                 transparentBackground props h))
  /\ forall view h', exists post,
       trace (_render this view scene helper toDrawingBuffer backgroundColor props h')
       = [Renderer_setViewport (x (viewport view)) (y (viewport view))
            (width (viewport view)) (height (viewport view));
          Renderer_update view]
         ++ trace (_renderBlended this view scene
                     (negb (FxaaPass_isEnabled props) && toDrawingBuffer) props h')
         ++ post.
Proof.
  intros Hw.
  assert (Hall : Forall (fun e => is_wboit_event e = false)
            (trace (render this camera scene helper toDrawingBuffer backgroundColor
                      transparentBackground props h))).
  { unfold render. safety; by apply _render_no_wboit. }
  split; [|split; [done|]].
  - intros Hin. by apply (proj1 (Forall_forall _ _) Hall) in Hin.
  - intros view h'. by apply _render_blended_trace.
Qed.

(** C1. [getColorTarget] returns the target of the antialiasing pass when
    antialiasing is enabled, whatever post-processing is; the target of the
    post-processing pass when antialiasing is disabled and post-processing is
    enabled; and the color target otherwise. *)
Theorem getColorTarget_cases this props :
  (FxaaPass_isEnabled props = true ->
   getColorTarget this props = fxaa_target (fxaa this))
  /\ (FxaaPass_isEnabled props = false -> PostprocessingPass_isEnabled props = true ->
      getColorTarget this props = postprocessing_target (postprocessing this))
  /\ (FxaaPass_isEnabled props = false -> PostprocessingPass_isEnabled props = false ->
      getColorTarget this props = colorTarget this).
Proof.
  unfold getColorTarget. repeat split; intros; by repeat match goal with
    | H : _ = _ |- _ => rewrite H
    end.
Qed.

(** C4, as amended.  [_renderWboit] on a draw pass whose WBOIT pass is absent
    or not enabled throws "expected wboit to be enabled" (in lower case)
    before any call and without touching the store; on a draw pass whose
    WBOIT pass is enabled it returns normally. *)
Theorem _renderWboit_throws_iff this camera scene backgroundColor props (h : Heap) :
  (wboit this = None \/ (exists p, wboit this = Some p /\ enabled p = false) ->
   _renderWboit this camera scene backgroundColor props h
   = (Throw "expected wboit to be enabled", h, []))
  /\ ((exists p, wboit this = Some p /\ enabled p = true) ->
      result (_renderWboit this camera scene backgroundColor props h) = Ok tt).
Proof.
  unfold _renderWboit, wboitEnabled. split.
  - intros [->|(p & -> & ->)]; reflexivity.
  - intros (p & -> & ->). by destruct (PostprocessingPass_isEnabled props).
Qed.

(** C9. In the WBOIT strategy with post-processing enabled, the
    post-processing pass is called right after the last call of the depth
    merge (the rendering of the merge renderable into the merged-depth
    target) and right before the binding of the WBOIT buffers and the
    rendering of the transparent primitives and volumes.  Nothing up to and
    including the depth merge binds those buffers or renders anything
    transparent; the two opaque passes come before the depth merge; and the
    post-processing pass is called once. *)
Theorem _renderWboit_postprocessing_order this camera scene backgroundColor props (h : Heap) :
  wboitEnabled this = true ->
  PostprocessingPass_isEnabled props = true ->
  exists pre post,
    trace (_renderWboit this camera scene backgroundColor props h)
    = pre
      ++ depthMerge_calls this
      ++ [PostprocessingPass_render camera false backgroundColor props;
          WboitPass_bind;
          Renderer_renderWboitTransparent (primitives scene) camera (Some (depthTexture this));
          Renderer_renderWboitTransparent (volumes scene) camera (Some (depthTexture this))]
      ++ post
    /\ Forall (fun e => is_transparent e = false) (pre ++ depthMerge_calls this)
    /\ Forall (fun e => is_postprocessing e = false) (pre ++ depthMerge_calls this ++ post)
    /\ Renderer_renderWboitOpaque (primitives scene) camera None ∈ pre
    /\ Renderer_renderWboitOpaque (volumes scene) camera (Some (depthTexturePrimitives this))
       ∈ pre.
Proof.
  intros Hw Hp. unfold _renderWboit. rewrite Hw, Hp.
  exists [RenderTarget_bind (colorTarget this); Renderer_clear true;
          Texture_attachFramebuffer (depthTexturePrimitives this) (colorTarget this);
          RenderTarget_bind (colorTarget this); Renderer_clearDepth;
          Renderer_renderWboitOpaque (primitives scene) camera None;
          Texture_attachFramebuffer (depthTextureVolumes this) (colorTarget this);
          RenderTarget_bind (colorTarget this); Renderer_clearDepth;
          Renderer_renderWboitOpaque (volumes scene) camera (Some (depthTexturePrimitives this))].
  exists [Texture_attachFramebuffer (depthTexturePrimitives this)
            (postprocessing_target (postprocessing this));
          RenderTarget_bind (postprocessing_target (postprocessing this));
          WboitPass_render].
  split; [reflexivity|].
  split; [repeat constructor|]. split; [repeat constructor|].
  split; set_solver.
Qed.

(** ** The blended strategy away from the drawing buffer *)

Lemma has_depth_pass_app target group pre tr post :
  has_depth_pass target group tr -> has_depth_pass target group (pre ++ tr ++ post).
Proof.
  intros (cam & d & pre' & post' & ->).
  exists cam, d, (pre ++ pre'), (post' ++ post). by rewrite <- !app_assoc.
Qed.

(** With packed depth the whole strategy, event by event. *)
Lemma _renderBlended_packed_run this camera scene props (h : Heap) tp tv :
  packedDepth this = true ->
  depthTargetPrimitives this = Some tp ->
  depthTargetVolumes this = Some tv ->
  _renderBlended this camera scene false props h
  = (Ok tt, h,
     [RenderTarget_bind (colorTarget this); Renderer_clear true;
      Renderer_renderBlendedOpaque (primitives scene) camera None]
     ++ depth_pass tp (primitives scene) camera None
     ++ [RenderTarget_bind (colorTarget this);
         Renderer_renderBlendedVolume (volumes scene) camera
           (Some (depthTexturePrimitives this))]
     ++ depth_pass tv (volumes scene) camera (Some (depthTexturePrimitives this))
     ++ [RenderTarget_bind (colorTarget this);
         Renderer_renderBlendedTransparent (primitives scene) camera None]
     ++ trace (_depthMerge this h)
     ++ [RenderTarget_bind (colorTarget this)]).
Proof. intros Hp H1 H2. unfold _renderBlended. by rewrite Hp, H1, H2. Qed.

(** Finds [pre] and [post] for a goal [exists pre post, tr = pre ++ mid ++ post]
    on a computed trace. *)
Ltac find_middle acc l :=
  first
    [ exists acc; eexists; reflexivity
    | lazymatch l with
      | ?e :: ?l' => find_middle (acc ++ [e]) l'
      end ].

Ltac split_middle :=
  lazymatch goal with
  | |- exists pre post, ?tr = _ =>
      let l := eval cbv in tr in find_middle (@nil Event) l
  end.

Lemma _renderBlended_depth_passes this camera scene props (h : Heap) :
  (forall tp, depthTargetPrimitives this = Some tp ->
     has_depth_pass tp (primitives scene)
       (trace (_renderBlended this camera scene false props h)))
  /\ (forall tv, depthTargetVolumes this = Some tv ->
        has_depth_pass tv (volumes scene)
          (trace (_renderBlended this camera scene false props h))).
Proof.
  split.
  - intros tp H1. exists camera, None. unfold _renderBlended. rewrite H1.
    destruct (packedDepth this), (depthTargetVolumes this); split_middle.
  - intros tv H2. exists camera, (Some (depthTexturePrimitives this)).
    unfold _renderBlended. rewrite H2.
    destruct (packedDepth this), (depthTargetPrimitives this); split_middle.
Qed.

Lemma _renderBlended_no_attach this camera scene toDrawingBuffer props (h : Heap) :
  packedDepth this = true ->
  Forall (fun e => is_attach e = false)
    (trace (_renderBlended this camera scene toDrawingBuffer props h)).
Proof.
  intros Hp. unfold _renderBlended. rewrite Hp.
  destruct toDrawingBuffer, (depthTargetPrimitives this), (depthTargetVolumes this);
    repeat constructor.
Qed.

(** C5, as amended.  On a draw pass with packed depth and the blended
    strategy, no call of [render] attaches a depth texture to a framebuffer;
    and every view that is not rendered straight to the drawing buffer
    ([toDrawingBuffer] is false or antialiasing is enabled) captures the depth
    of the primitives and the depth of the volumes by a depth-only pass
    ([renderDepth]) into the primitive and the volume depth target. *)
Theorem packedDepth_blended_depth_passes this camera scene helper toDrawingBuffer
    backgroundColor transparentBackground props (h : Heap) :
  packedDepth this = true ->
  packed_targets this = true ->
  wboitEnabled this = false ->
  Forall (fun e => is_attach e = false)
    (trace (render this camera scene helper toDrawingBuffer backgroundColor
              transparentBackground props h))
  /\ (negb (FxaaPass_isEnabled props) && toDrawingBuffer = false ->
      exists tp tv,
        depthTargetPrimitives this = Some tp
        /\ depthTargetVolumes this = Some tv
        /\ forall view h',
             has_depth_pass tp (primitives scene)
               (trace (_render this view scene helper toDrawingBuffer backgroundColor
                         props h'))
             /\ has_depth_pass tv (volumes scene)
                  (trace (_render this view scene helper toDrawingBuffer backgroundColor
                            props h'))).
Proof.
  intros Hp Ht Hw. split.
  - assert (Hview : forall view h',
              Forall (fun e => is_attach e = false)
                (trace (_render this view scene helper toDrawingBuffer backgroundColor
                          props h'))).
    { intros view h'. unfold _render. rewrite Hw. safety.
      by apply _renderBlended_no_attach. }
    unfold render. safety; apply Hview.
  - intros Hoff. unfold packed_targets in Ht. rewrite Hp in Ht.
    apply andb_true_iff in Ht as [H1 H2].
    apply eqb_prop, eq_sym, bool_decide_eq_true in H1 as [tp H1].
    apply eqb_prop, eq_sym, bool_decide_eq_true in H2 as [tv H2].
    exists tp, tv. split; [done|]. split; [done|]. intros view h'.
    destruct (_render_blended_trace this view scene helper toDrawingBuffer
                backgroundColor props h' Hw) as [post ->].
    rewrite Hoff.
    destruct (_renderBlended_depth_passes this view scene props h') as [Hd1 Hd2].
    split; apply has_depth_pass_app; auto.
Qed.

Lemma _renderBlended_offscreen this camera scene props (h : Heap) :
  Forall (fun e => is_offscreen this e = true)
    (trace (_renderBlended this camera scene false props h)).
Proof.
  unfold _renderBlended, _depthMerge, is_offscreen, offscreen_targets.
  destruct (packedDepth this), (depthTargetPrimitives this), (depthTargetVolumes this);
    repeat constructor; apply bool_decide_eq_true; set_solver.
Qed.

(** C10. With antialiasing enabled and the blended strategy, [_render] calls
    the strategy with [toDrawingBuffer = false] whatever the caller passed.
    The strategy then binds the color target first and draws the opaque
    primitives, the volumes and the transparent primitives while the color
    target is bound, rebinding it after each depth-only pass; it makes the
    depth-only passes into the depth targets that exist; and it ends with
    the depth merge (the merge renderable rendered into the merged-depth
    target) and the rebinding of the color target.  No event of the view
    unbinds the framebuffer or binds a target that is not offscreen. *)
Theorem antialiasing_renders_offscreen this camera scene helper toDrawingBuffer
    backgroundColor props (h : Heap) :
  FxaaPass_isEnabled props = true ->
  wboitEnabled this = false ->
  (exists post,
     trace (_render this camera scene helper toDrawingBuffer backgroundColor props h)
     = [Renderer_setViewport (x (viewport camera)) (y (viewport camera))
          (width (viewport camera)) (height (viewport camera));
        Renderer_update camera]
       ++ trace (_renderBlended this camera scene false props h)
       ++ post)
  /\ trace (_renderBlended this camera scene false props h)
     = [RenderTarget_bind (colorTarget this)]
       ++ (if packedDepth this then []
           else [Texture_attachFramebuffer (depthTexturePrimitives this) (colorTarget this)])
       ++ [Renderer_clear true;
           Renderer_renderBlendedOpaque (primitives scene) camera None]
       ++ match depthTargetPrimitives this with
          | Some tp => depth_pass tp (primitives scene) camera None
                       ++ [RenderTarget_bind (colorTarget this)]
          | None => []
          end
       ++ (if packedDepth this then []
           else [Texture_attachFramebuffer (depthTextureVolumes this) (colorTarget this);
                 Renderer_clearDepth])
       ++ [Renderer_renderBlendedVolume (volumes scene) camera
             (Some (depthTexturePrimitives this))]
       ++ match depthTargetVolumes this with
          | Some tv => depth_pass tv (volumes scene) camera
                         (Some (depthTexturePrimitives this))
                       ++ [RenderTarget_bind (colorTarget this)]
          | None => []
          end
       ++ (if packedDepth this then []
           else [Texture_attachFramebuffer (depthTexturePrimitives this) (colorTarget this)])
       ++ [Renderer_renderBlendedTransparent (primitives scene) camera None]
       ++ depthMerge_calls this
       ++ [RenderTarget_bind (colorTarget this)]
  /\ (forall b, renders_into (colorTarget this) b
                  (trace (_renderBlended this camera scene false props h)))
  /\ (forall tp, depthTargetPrimitives this = Some tp ->
        has_depth_pass tp (primitives scene)
          (trace (_renderBlended this camera scene false props h)))
  /\ (forall tv, depthTargetVolumes this = Some tv ->
        has_depth_pass tv (volumes scene)
          (trace (_renderBlended this camera scene false props h)))
  /\ Forall (fun e => is_offscreen this e = true)
       (trace (_render this camera scene helper toDrawingBuffer backgroundColor props h)).
Proof.
  intros Ha Hw. split; [|split; [|split; [|split; [|split]]]].
  - destruct (_render_blended_trace this camera scene helper toDrawingBuffer
                backgroundColor props h Hw) as [post Hpost].
    rewrite Ha in Hpost. by exists post.
  - unfold _renderBlended.
    by destruct (packedDepth this), (depthTargetPrimitives this), (depthTargetVolumes this).
  - intros b. unfold _renderBlended.
    destruct (packedDepth this), (depthTargetPrimitives this), (depthTargetVolumes this);
      cbv; repeat split; intros; try done.
  - apply _renderBlended_depth_passes.
  - apply _renderBlended_depth_passes.
  - unfold _render. rewrite Ha, Hw. simpl andb.
    safety; try (apply bool_decide_eq_true; unfold offscreen_targets; set_solver).
    apply _renderBlended_offscreen.
Qed.

(** ** Presentation without antialiasing and post-processing *)

(** X1. With the blended strategy and neither antialiasing nor
    post-processing, a view to the drawing buffer ends with the binding of the presentation
    target, one call of the copy stage that reads the color target, and the
    flush, and calls no other compute renderable; a view that is not to the
    drawing buffer calls the depth merge and no other compute renderable; and
    neither calls the antialiasing pass. *)
Theorem blended_presentation this camera scene helper backgroundColor props (h : Heap) :
  wboitEnabled this = false ->
  FxaaPass_isEnabled props = false ->
  PostprocessingPass_isEnabled props = false ->
  (exists pre,
     trace (_render this camera scene helper true backgroundColor props h)
     = pre ++ [RenderTarget_bind (drawTarget this);
               ComputeRenderable_render (cp_renderItem (copyFboTarget this));
               Gl_flush]
     /\ Forall (fun e => is_compute e = false) pre)
  /\ List.filter is_compute
       (trace (_render this camera scene helper false backgroundColor props h))
     = [ComputeRenderable_update (dm_renderItem (depthMerge this));
        ComputeRenderable_render (dm_renderItem (depthMerge this))]
  /\ Forall (fun e => is_fxaa e = false)
       (trace (_render this camera scene helper true backgroundColor props h)
        ++ trace (_render this camera scene helper false backgroundColor props h)).
Proof.
  intros Hw Ha Hp. unfold _render, _renderBlended. rewrite Hw, Ha, Hp.
  destruct (debug_isEnabled (helper_debug helper)), (handle_isEnabled (helper_handle helper)),
    (camera_isEnabled (helper_camera helper)), (packedDepth this),
    (depthTargetPrimitives this), (depthTargetVolumes this);
    (split; [split_trace; repeat constructor|split; [reflexivity|repeat constructor]]).
Qed.

(** ** The constructor establishes what the theorems assume *)

(** Commands at the head of a sequence, on a store [h0 ++ l] whose second
    part is known. *)
Lemma bind_assoc {A B C : Type} (m : Cmd A) (f : A -> Cmd B) (g : B -> Cmd C) h :
  ((m ≫= f) ≫= g) h = (m ≫= (fun a => f a ≫= g)) h.
Proof.
  unfold mbind, Cmd_bind. destruct (m h) as [[[a|msg] h1] t1]; [|done].
  destruct (f a h1) as [[[b|msg] h2] t2]; [|done].
  destruct (g b h2) as [[r h3] t3]. by rewrite app_assoc.
Qed.

Lemma bind_ret {A B : Type} (a : A) (k : A -> Cmd B) h : (mret a ≫= k) h = k a h.
Proof. by apply bind_run. Qed.

Lemma bind_alloc {B : Type} o (k : loc -> Cmd B) (h : Heap) :
  (alloc o ≫= k) h = k (length h) (h ++ [o]).
Proof. by apply bind_run. Qed.

Lemma bind_deref {B : Type} l o (k : Obj -> Cmd B) (h : Heap) :
  h !! l = Some o -> (deref l ≫= k) h = k o h.
Proof. intros Hl. by apply bind_run, deref_run. Qed.

Lemma bind_store {B : Type} l o (k : unit -> Cmd B) (h : Heap) :
  (store l o ≫= k) h = k tt (<[l := o]> h).
Proof. by apply bind_run. Qed.

Lemma lookup_app_add (h0 l : Heap) (k : nat) : (h0 ++ l) !! (length h0 + k)%nat = l !! k.
Proof. rewrite lookup_app_r by lia. f_equal. lia. Qed.

(** Runs the constructor step by step. *)
Ltac unfold_ctor :=
  progress unfold new_DrawPass, createNullRenderTarget, createRenderTarget, createDepthTarget,
    depthTextureOf, getDepthMergeRenderable, getCopyFboRenderable, new_WboitPass,
    new_PostprocessingPass, new_FxaaPass, RenderTarget_texture, RenderTarget_getWidth,
    RenderTarget_getHeight, Texture_getWidth, Texture_getHeight, Texture_define,
    resources_texture, Vec2_create, ValueCell_create, when.

Ltac exec :=
  repeat first
    [ rewrite bind_assoc
    | rewrite bind_ret
    | rewrite bind_alloc, <- app_assoc, length_app; simpl app; simpl length
    | erewrite bind_deref by (rewrite lookup_app_add; reflexivity)
    | rewrite bind_store, insert_app_r; simpl (<[_ := _]> _)
    | unfold_ctor
    | progress cbn [WboitPass_isSupported extensions_depthTexture negb postprocessing_target]
    | progress cbv iota beta ].

(** X2. In any store the constructor returns normally and leaves the objects
    that are there as they are; the draw pass it returns has targets,
    textures and [uTexSize] uniforms that all have the size [width] x
    [height], and depth textures that are those of the depth targets;
    [packedDepth] is the absence of depth textures in the context, the depth
    targets exist exactly when depth is packed, and WBOIT is enabled exactly
    when it was asked for and the context supports it. *)
Theorem new_DrawPass_invariant (h0 : Heap) webgl width height enableWboit :
  exists this (h1 : Heap),
    new_DrawPass webgl width height enableWboit h0 = (Ok this, h0 ++ h1, [])
    /\ wired this (h0 ++ h1) = true
    /\ owned_sized this (h0 ++ h1) width height = true
    /\ packed_targets this = true
    /\ packedDepth this = negb (extensions_depthTexture webgl)
    /\ wboitEnabled this = enableWboit && WboitPass_isSupported webgl.
Proof.
  assert (E : new_DrawPass webgl width height enableWboit h0
              = new_DrawPass webgl width height enableWboit (h0 ++ []))
    by (by rewrite app_nil_r).
  rewrite E. clear E.
  destruct webgl as [[] []], enableWboit.
  all: exec.
  all: eexists; eexists; (split; [reflexivity|]).
  all: (split; [|split; [|repeat split]]).
  all: repeat (progress
         (unfold wired, owned_sized, target_sized, texture_sized, uniform_sized,
            option_sized, wboit_sized, has_texture;
          rewrite ?lookup_app_add;
          cbn -[Z.eqb Nat.eqb "+"%nat length];
          rewrite ?Z.eqb_refl, ?Nat.eqb_refl)).
  all: reflexivity.
Qed.

(** ** Frames *)

Lemma bind_ok {A B : Type} (m : Cmd A) (k : A -> Cmd B) h a h1 t1 r h2 t2 :
  m h = (Ok a, h1, t1) -> k a h1 = (r, h2, t2) -> (m ≫= k) h = (r, h2, t1 ++ t2).
Proof. intros Hm Hk. unfold mbind, Cmd_bind. by rewrite Hm, Hk. Qed.

Lemma returns_bind {A B : Type} (m : Cmd A) (k : A -> Cmd B) :
  returns m -> (forall a, returns (k a)) -> returns (m ≫= k).
Proof.
  intros Hm Hk h. destruct (Hm h) as (a & t1 & E1). destruct (Hk a h) as (b & t2 & E2).
  exists b, (t1 ++ t2). unfold mbind, Cmd_bind. by rewrite E1, E2.
Qed.

Lemma returns_emit e : returns (emit e).
Proof. intros h. by exists tt, [e]. Qed.

Lemma returns_ret {A : Type} (a : A) : returns (mret (M := Cmd) a).
Proof. intros h. by exists a, []. Qed.

Lemma returns_when b (c : Cmd unit) : returns c -> returns (when b c).
Proof. destruct b; [done|]. intros _. apply returns_ret. Qed.

(** Splits a goal [returns c] along the structure of the command. *)
Ltac returning :=
  repeat
    lazymatch goal with
    | |- returns (_ ≫= _) => apply returns_bind; [|intros ?]
    | |- returns (emit _) => apply returns_emit
    | |- returns (mret _) => apply returns_ret
    | |- returns (when _ _) => apply returns_when
    | |- returns (if ?b then _ else _) => destruct b
    | |- returns (match ?o with Some _ => _ | None => _ end) => destruct o
    end.

Lemma _depthMerge_returns this : returns (_depthMerge this).
Proof. unfold _depthMerge. returning. Qed.

Lemma _renderBlended_returns this camera scene toDrawingBuffer props :
  returns (_renderBlended this camera scene toDrawingBuffer props).
Proof.
  unfold _renderBlended. destruct toDrawingBuffer; simpl negb; returning;
    apply _depthMerge_returns.
Qed.

Lemma _renderWboit_returns this camera scene backgroundColor props :
  wboitEnabled this = true ->
  returns (_renderWboit this camera scene backgroundColor props).
Proof.
  intros Hw. unfold _renderWboit. rewrite Hw. simpl negb. cbv iota.
  returning; apply _depthMerge_returns.
Qed.

(** [_render] never reaches the [throw] of [_renderWboit]: it calls the WBOIT
    strategy only under the condition that the strategy checks. *)
Lemma _render_returns this camera scene helper toDrawingBuffer backgroundColor props :
  returns (_render this camera scene helper toDrawingBuffer backgroundColor props).
Proof.
  unfold _render. destruct (wboitEnabled this) eqn:Hw; returning;
    first [by apply _renderWboit_returns | apply _renderBlended_returns].
Qed.

Lemma _render_run this camera scene helper toDrawingBuffer backgroundColor props (h : Heap) :
  _render this camera scene helper toDrawingBuffer backgroundColor props h
  = (Ok tt, h, trace (_render this camera scene helper toDrawingBuffer backgroundColor props h)).
Proof.
  destruct (_render_returns this camera scene helper toDrawingBuffer backgroundColor props h)
    as ([] & tr & ->). reflexivity.
Qed.

(** [render] on a store in which the color target is a render target. *)
Lemma render_run this camera scene helper toDrawingBuffer backgroundColor
    transparentBackground props (h : Heap) w0 h0 tex :
  h !! colorTarget this = Some (RenderTargetObj w0 h0 tex) ->
  render this camera scene helper toDrawingBuffer backgroundColor transparentBackground
    props h
  = (Ok tt, h,
     [Renderer_setTransparentBackground transparentBackground;
      Renderer_setDrawingBufferSize w0 h0]
     ++ concat (map (fun view =>
                       trace (_render this view scene helper toDrawingBuffer
                                backgroundColor props h))
                    (views camera))).
Proof.
  intros Hc. unfold render.
  eapply (bind_ok _ _ h tt h [_]); [reflexivity|].
  rewrite (bind_run _ _ _ _ _ (RenderTarget_getWidth_run _ _ _ _ _ Hc)).
  rewrite (bind_run _ _ _ _ _ (RenderTarget_getHeight_run _ _ _ _ _ Hc)).
  eapply (bind_ok _ _ h tt h [_]); [reflexivity|].
  destruct camera as [view|camera_left camera_right]; simpl.
  - by rewrite app_nil_r, <- _render_run.
  - eapply bind_ok; [apply _render_run|]. by rewrite app_nil_r, <- _render_run.
Qed.

(** X3. On a store in which the color target is a render target, [render]
    returns normally and leaves the store as it is, for a mono or a stereo
    camera and for either strategy: the error of [_renderWboit] is never
    raised through [render].  Its calls are the transparent-background flag,
    the drawing-buffer size (the size of the color target), and then one
    complete view per sub-camera, the left one before the right one. *)
Theorem render_frame this camera scene helper toDrawingBuffer backgroundColor
    transparentBackground props (h : Heap) w0 h0 tex :
  h !! colorTarget this = Some (RenderTargetObj w0 h0 tex) ->
  render this camera scene helper toDrawingBuffer backgroundColor transparentBackground
    props h
  = (Ok tt, h,
     [Renderer_setTransparentBackground transparentBackground;
      Renderer_setDrawingBufferSize w0 h0]
     ++ concat (map (fun view =>
                       trace (_render this view scene helper toDrawingBuffer
                                backgroundColor props h))
                    (views camera))).
Proof. apply render_run. Qed.

Lemma strategy_returns this camera scene toDrawingBuffer backgroundColor props :
  returns (strategy this camera scene toDrawingBuffer backgroundColor props).
Proof.
  unfold strategy. destruct (wboitEnabled this) eqn:Hw.
  - by apply _renderWboit_returns.
  - apply _renderBlended_returns.
Qed.

Lemma Forall_trace_throw (P : Event -> Prop) {A : Type} msg (h : Heap) :
  Forall P (trace (throw (A := A) msg h)).
Proof. constructor. Qed.

(** The trace of a view, part by part. *)
Lemma _render_trace this camera scene helper toDrawingBuffer backgroundColor props (h : Heap) :
  trace (_render this camera scene helper toDrawingBuffer backgroundColor props h)
  = [Renderer_setViewport (x (viewport camera)) (y (viewport camera))
       (width (viewport camera)) (height (viewport camera));
     Renderer_update camera]
    ++ trace (strategy this camera scene toDrawingBuffer backgroundColor props h)
    ++ [RenderTarget_bind (overlay_target this props)]
    ++ helper_calls helper camera
    ++ present_calls this camera toDrawingBuffer props
    ++ [Gl_flush].
Proof.
  destruct (strategy_returns this camera scene toDrawingBuffer backgroundColor props h)
    as ([] & ts & Hs).
  unfold _render. fold (strategy this camera scene toDrawingBuffer backgroundColor props).
  rewrite (trace_bind_ok _ _ h tt h [_] eq_refl), (trace_bind_ok _ _ h tt h [_] eq_refl).
  rewrite (trace_bind_ok _ _ _ _ _ _ Hs), Hs.
  change (trace (Ok tt, h, ts)) with ts. cbn [app]. do 2 f_equal.
  apply (f_equal (app ts)).
  unfold overlay_target, helper_calls, present_calls, copy_stage.
  destruct (PostprocessingPass_isEnabled props), (debug_isEnabled (helper_debug helper)),
    (handle_isEnabled (helper_handle helper)), (camera_isEnabled (helper_camera helper)),
    (FxaaPass_isEnabled props), toDrawingBuffer; reflexivity.
Qed.

Lemma strategy_no_flush this camera scene toDrawingBuffer backgroundColor props (h : Heap) :
  Forall (fun e => is_flush e = false)
    (trace (strategy this camera scene toDrawingBuffer backgroundColor props h)).
Proof.
  unfold strategy, _renderWboit, _renderBlended.
  destruct (wboitEnabled this); simpl negb; cbv iota; safety;
    try (unfold _depthMerge; safety); apply Forall_trace_throw.
Qed.

Lemma strategy_no_helper this camera scene toDrawingBuffer backgroundColor props (h : Heap) :
  Forall (fun e => is_helper_event e = false)
    (trace (strategy this camera scene toDrawingBuffer backgroundColor props h)).
Proof.
  unfold strategy, _renderWboit, _renderBlended.
  destruct (wboitEnabled this); simpl negb; cbv iota; safety;
    try (unfold _depthMerge; safety); apply Forall_trace_throw.
Qed.

(** X4. A view ends with [gl.flush()], and that is its only flush; so a frame
    flushes once per sub-camera, once for a mono camera and twice for a
    stereo camera. *)
Theorem render_flushes this camera scene helper toDrawingBuffer backgroundColor
    transparentBackground props (h : Heap) w0 h0 tex :
  h !! colorTarget this = Some (RenderTargetObj w0 h0 tex) ->
  List.filter is_flush
    (trace (render this camera scene helper toDrawingBuffer backgroundColor
              transparentBackground props h))
  = map (fun _ => Gl_flush) (views camera)
  /\ forall view h', exists body,
       trace (_render this view scene helper toDrawingBuffer backgroundColor props h')
       = body ++ [Gl_flush]
       /\ Forall (fun e => is_flush e = false) body.
Proof.
  intros Hc.
  assert (Hview : forall view h', exists body,
            trace (_render this view scene helper toDrawingBuffer backgroundColor props h')
            = body ++ [Gl_flush]
            /\ Forall (fun e => is_flush e = false) body).
  { intros view h'. rewrite _render_trace. eexists. split.
    - rewrite !app_assoc. reflexivity.
    - rewrite !Forall_app. repeat split; try (repeat constructor).
      + apply strategy_no_flush.
      + unfold helper_calls.
        destruct (debug_isEnabled _), (handle_isEnabled _), (camera_isEnabled _);
          repeat constructor.
      + unfold present_calls.
        destruct (FxaaPass_isEnabled props), toDrawingBuffer; repeat constructor. }
  split; [|done].
  assert (Hone : forall view,
            List.filter is_flush
              (trace (_render this view scene helper toDrawingBuffer backgroundColor props h))
            = [Gl_flush]).
  { intros view. destruct (Hview view h) as (body & -> & Hbody).
    rewrite List.filter_app. simpl.
    replace (List.filter is_flush body) with (@nil Event); [done|].
    symmetry. clear -Hbody. induction Hbody as [|e l He _ IH]; [done|].
    simpl. by rewrite He. }
  rewrite (render_run _ _ _ _ _ _ _ _ _ _ _ _ Hc). simpl trace. simpl List.filter.
  destruct camera as [view|camera_left camera_right]; simpl.
  - by rewrite app_nil_r, Hone.
  - by rewrite app_nil_r, List.filter_app, !Hone.
Qed.

(** X5. In every view and with either strategy, the helpers are drawn after
    the strategy, on the target that [_render] binds then (the post-processing
    target when post-processing is enabled, the color target otherwise), with
    [renderBlended], in the order debug, handle, camera, and only those that
    are enabled; nothing before or after makes a helper call. *)
Theorem helper_overlays this camera scene helper toDrawingBuffer backgroundColor props
    (h : Heap) :
  exists pre post,
    trace (_render this camera scene helper toDrawingBuffer backgroundColor props h)
    = pre
      ++ [RenderTarget_bind (overlay_target this props)]
      ++ helper_calls helper camera
      ++ post
    /\ Forall (fun e => is_helper_event e = false) pre
    /\ Forall (fun e => is_helper_event e = false) post.
Proof.
  rewrite _render_trace. eexists (_ :: _ :: _), _. split.
  - reflexivity.
  - split.
    + repeat constructor. apply strategy_no_helper.
    + apply Forall_app. split; [|repeat constructor].
      unfold present_calls.
      destruct (FxaaPass_isEnabled props), toDrawingBuffer; repeat constructor.
Qed.

(** ** Bindings *)

Lemma well_bound_app this b t1 t2 :
  well_bound this b (t1 ++ t2)
  <-> well_bound this b t1 /\ well_bound this (fold_left bind_step t1 b) t2.
Proof.
  revert b. induction t1 as [|e t1 IH]; intros b; simpl; [tauto|].
  rewrite IH. tauto.
Qed.

Lemma strategy_well_bound this camera scene toDrawingBuffer backgroundColor props
    (h : Heap) b :
  well_bound this b (trace (strategy this camera scene toDrawingBuffer backgroundColor props h)).
Proof.
  unfold strategy, _renderWboit, _renderBlended.
  destruct (wboitEnabled this); simpl negb; cbv iota.
  - destruct (PostprocessingPass_isEnabled props); cbv; repeat split; eauto; try discriminate.
  - destruct (negb (FxaaPass_isEnabled props) && toDrawingBuffer), (packedDepth this),
      (depthTargetPrimitives this) eqn:E1, (depthTargetVolumes this) eqn:E2;
      cbv; repeat split; eauto; try discriminate.
Qed.

(** X6. Every drawing call of a view lands where it is meant to, whatever
    was bound when the view starts: a depth-only pass in one of the two depth
    targets, the depth merge in the merged-depth target, opaque and
    transparent primitives in the color target or in the default framebuffer,
    volumes and the opaque WBOIT passes in the color target, the transparent
    WBOIT passes in the WBOIT buffers, the WBOIT resolve and the helpers in
    the color or the post-processing target, the copy stage in the
    presentation target; and nothing is cleared or drawn under a binding left
    by a stage pass. *)
Theorem view_well_bound this camera scene helper toDrawingBuffer backgroundColor props
    (h : Heap) b :
  well_bound this b
    (trace (_render this camera scene helper toDrawingBuffer backgroundColor props h)).
Proof.
  rewrite _render_trace. cbn [app well_bound draws_into bind_step].
  do 2 (split; [done|]).
  apply well_bound_app. split; [apply strategy_well_bound|].
  generalize (fold_left bind_step
                (trace (strategy this camera scene toDrawingBuffer backgroundColor props h)) b).
  intros b'. unfold overlay_target, helper_calls, present_calls, copy_stage.
  destruct (PostprocessingPass_isEnabled props), (debug_isEnabled (helper_debug helper)),
    (handle_isEnabled (helper_handle helper)), (camera_isEnabled (helper_camera helper)),
    (FxaaPass_isEnabled props), toDrawingBuffer; cbv; repeat split; eauto.
Qed.

(** ** What the compute renderables read *)

(** X7. In any store the constructor wires the compute renderables: the
    depth merge reads the primitive and the volume depth texture and carries
    the [packedDepth] flag; each copy stage reads the color texture of the
    target it presents (the color target, the post-processing target) and the
    merged depth texture; and the render targets of the draw pass are
    pairwise distinct objects. *)
Theorem new_DrawPass_wiring (h0 : Heap) webgl width height enableWboit :
  exists this (h1 : Heap),
    new_DrawPass webgl width height enableWboit h0 = (Ok this, h0 ++ h1, [])
    /\ renderables_wired this (h0 ++ h1) = true
    /\ NoDup (all_targets this).
Proof.
  assert (E : new_DrawPass webgl width height enableWboit h0
              = new_DrawPass webgl width height enableWboit (h0 ++ []))
    by (by rewrite app_nil_r).
  rewrite E. clear E.
  destruct webgl as [[] []], enableWboit.
  all: exec.
  all: eexists; eexists; (split; [reflexivity|]).
  all: split.
  all: try (repeat (progress
         (unfold renderables_wired, cell_holds, texture_of;
          rewrite ?lookup_app_add;
          cbn -[Z.eqb Nat.eqb "+"%nat length];
          rewrite ?Nat.eqb_refl)); reflexivity).
  all: unfold all_targets, offscreen_targets; cbn -["+"%nat length].
  all: repeat (apply NoDup_cons; split; [rewrite ?elem_of_cons, elem_of_nil; lia|]).
  all: apply NoDup_nil; done.
Qed.

Lemma texture_of_resize_all w hh ls (h : Heap) t :
  texture_of (resize_all w hh ls h) t = texture_of h t.
Proof.
  unfold texture_of. rewrite lookup_resize_all.
  destruct (decide (t ∈ ls)); [|done]. by destruct (h !! t) as [[]|].
Qed.

Lemma cell_holds_resize_all w hh ls (h : Heap) c v :
  cell_holds (resize_all w hh ls h) c v = cell_holds h c v.
Proof.
  unfold cell_holds. rewrite lookup_resize_all.
  destruct (decide (c ∈ ls)); [|done]. by destruct (h !! c) as [[]|].
Qed.

Lemma renderables_wired_resize_all this w hh ls (h : Heap) :
  renderables_wired this (resize_all w hh ls h) = renderables_wired this h.
Proof.
  unfold renderables_wired. by rewrite !cell_holds_resize_all, !texture_of_resize_all.
Qed.

(** What [setSize] does to the store, in either case. *)
Lemma setSize_cases this (h : Heap) w0 h0 width height :
  owned_sized this h w0 h0 = true ->
  exists ls, setSize this width height h = (Ok tt, resize_all width height ls h, []).
Proof.
  intros Hsized. destruct ((width =? w0) && (height =? h0)) eqn:Hcmp.
  - apply andb_true_iff in Hcmp as [->%Z.eqb_eq ->%Z.eqb_eq].
    exists []. by apply setSize_same.
  - exists (touched this h). by eapply setSize_run.
Qed.

(** X8. [setSize] keeps the wiring of the compute renderables: on a draw
    pass whose owned objects all have the current size, the depth merge and
    the two copy stages read the same textures after [setSize] as before. *)
Theorem setSize_keeps_wiring this (h : Heap) w0 h0 width height :
  owned_sized this h w0 h0 = true ->
  renderables_wired this h = true ->
  exists h' : Heap,
    setSize this width height h = (Ok tt, h', [])
    /\ renderables_wired this h' = true
    /\ (forall t, texture_of h' t = texture_of h t).
Proof.
  intros Hsized Hwired. destruct (setSize_cases this h w0 h0 width height Hsized) as [ls ->].
  eexists. split; [done|]. split.
  - by rewrite renderables_wired_resize_all.
  - intros t. apply texture_of_resize_all.
Qed.

(** X9. [setSize] and [render] compose: on a draw pass whose owned objects
    all have the current size, the frame rendered after
    [setSize(width, height)] returns normally, leaves the store as it is and
    reports [width] x [height] as the size of the drawing buffer. *)
Theorem render_after_setSize this camera scene helper toDrawingBuffer backgroundColor
    transparentBackground props (h : Heap) w0 h0 width height :
  owned_sized this h w0 h0 = true ->
  exists (h' : Heap) tr,
    setSize this width height h = (Ok tt, h', [])
    /\ render this camera scene helper toDrawingBuffer backgroundColor transparentBackground
         props h'
       = (Ok tt, h',
          Renderer_setTransparentBackground transparentBackground
          :: Renderer_setDrawingBufferSize width height :: tr).
Proof.
  intros Hsized.
  assert (Hc : target_sized h (colorTarget this) w0 h0 = true).
  { unfold owned_sized in Hsized. rewrite !andb_true_iff in Hsized.
    by destruct Hsized as [[[[[[[[[[[[Hc _] _] _] _] _] _] _] _] _] _] _] _]. }
  assert (Hafter : exists h' : Heap,
            setSize this width height h = (Ok tt, h', [])
            /\ target_sized h' (colorTarget this) width height = true).
  { destruct ((width =? w0) && (height =? h0)) eqn:Hcmp.
    - apply andb_true_iff in Hcmp as [->%Z.eqb_eq ->%Z.eqb_eq].
      exists h. by rewrite (setSize_same _ _ _ _ Hsized).
    - exists (resize_all width height (touched this h) h).
      rewrite (setSize_run _ _ _ _ _ _ Hsized Hcmp).
      split; [done|].
      apply (target_sized_resize_all _ _ _ _ _ _ _ Hc); unfold touched, target_locs;
        set_solver. }
  destruct Hafter as (h' & Hset & [Hc' _]%target_sized_spec).
  exists h'. eexists. split; [done|].
  by rewrite (render_run _ _ _ _ _ _ _ _ _ _ _ _ Hc').
Qed.

Lemma cell_holds_value_of (h : Heap) c v : cell_holds h c v = true -> value_of h c = v.
Proof.
  unfold cell_holds, value_of. destruct (h !! c) as [[]|]; try done.
  by intros ?%Nat.eqb_eq.
Qed.

(** X10. Without antialiasing, what a view presents is the target that
    [getColorTarget] names: the helpers are drawn on [getColorTarget(props)],
    and a view to the drawing buffer then binds the presentation target and
    runs the one copy stage whose color input is the texture of
    [getColorTarget(props)] and whose depth input is the merged depth
    texture. *)
Theorem presented_target this camera scene helper backgroundColor props (h : Heap) :
  FxaaPass_isEnabled props = false ->
  renderables_wired this h = true ->
  exists pre,
    trace (_render this camera scene helper true backgroundColor props h)
    = pre
      ++ [RenderTarget_bind (getColorTarget this props)]
      ++ helper_calls helper camera
      ++ [RenderTarget_bind (drawTarget this);
          ComputeRenderable_render (cp_renderItem (copy_stage this props));
          Gl_flush]
    /\ value_of h (tColor (cp_values (copy_stage this props)))
       = texture_of h (getColorTarget this props)
    /\ value_of h (tDepth (cp_values (copy_stage this props))) = depthTexture this.
Proof.
  intros Ha Hwired. unfold renderables_wired in Hwired. rewrite !andb_true_iff in Hwired.
  destruct Hwired as [[[[[[_ _] _] Hc1] Hd1] Hc2] Hd2].
  rewrite _render_trace. unfold present_calls, getColorTarget, overlay_target, copy_stage.
  rewrite Ha. eexists (_ :: _ :: _). split; [reflexivity|].
  destruct (PostprocessingPass_isEnabled props); split; by apply cell_holds_value_of.
Qed.

Lemma filter_none {A} (f : A -> bool) (l : list A) :
  Forall (fun e => f e = false) l -> List.filter f l = [].
Proof. induction 1 as [|e l He _ IH]; [done|]. simpl. by rewrite He. Qed.

Lemma _renderBlended_no_postprocessing this camera scene toDrawingBuffer props (h : Heap) :
  Forall (fun e => is_postprocessing e = false)
    (trace (_renderBlended this camera scene toDrawingBuffer props h)).
Proof.
  unfold _renderBlended. destruct toDrawingBuffer; simpl negb; safety;
    unfold _depthMerge; safety.
Qed.

(** X11. Only the WBOIT strategy runs the post-processing pass: a view calls
    [postprocessing.render] once, with the view's camera, when WBOIT is
    enabled and post-processing is enabled, and never otherwise; the blended
    strategy does not call it even when post-processing is enabled. *)
Theorem postprocessing_only_with_wboit this camera scene helper toDrawingBuffer
    backgroundColor props (h : Heap) :
  List.filter is_postprocessing
    (trace (_render this camera scene helper toDrawingBuffer backgroundColor props h))
  = if wboitEnabled this && PostprocessingPass_isEnabled props
    then [PostprocessingPass_render camera false backgroundColor props]
    else [].
Proof.
  rewrite _render_trace, !List.filter_app.
  replace (List.filter is_postprocessing (helper_calls helper camera)) with (@nil Event).
  2:{ unfold helper_calls.
      by destruct (debug_isEnabled _), (handle_isEnabled _), (camera_isEnabled _). }
  replace (List.filter is_postprocessing (present_calls this camera toDrawingBuffer props))
    with (@nil Event).
  2:{ unfold present_calls. by destruct (FxaaPass_isEnabled props), toDrawingBuffer. }
  simpl. rewrite !app_nil_r. unfold strategy.
  destruct (wboitEnabled this) eqn:Hw; simpl.
  - unfold _renderWboit. rewrite Hw. simpl negb. cbv iota.
    by destruct (PostprocessingPass_isEnabled props).
  - apply filter_none, _renderBlended_no_postprocessing.
Qed.

Lemma packed_targets_native this :
  packedDepth this = false -> packed_targets this = true ->
  depthTargetPrimitives this = None /\ depthTargetVolumes this = None.
Proof.
  intros Hp. unfold packed_targets. rewrite Hp.
  destruct (depthTargetPrimitives this), (depthTargetVolumes this); try done;
    intros Ht; exfalso; revert Ht; rewrite ?bool_decide_eq_true_2 by eauto; simpl;
    rewrite ?andb_false_r; done.
Qed.

(** X17. With native depth textures ([packedDepth = false], hence no
    separate depth targets) the blended strategy makes no depth-only pass.
    A view rendered off screen attaches the depth texture of the primitives
    to the color target, then the depth texture of the volumes, then the one
    of the primitives again, so that the view ends with the primitives' depth
    attached; a view rendered straight to the drawing buffer attaches
    nothing. *)
Theorem native_depth_blended this camera scene helper toDrawingBuffer backgroundColor
    props (h : Heap) :
  packedDepth this = false ->
  packed_targets this = true ->
  wboitEnabled this = false ->
  List.filter is_renderDepth
    (trace (_render this camera scene helper toDrawingBuffer backgroundColor props h)) = []
  /\ List.filter is_attach
       (trace (_render this camera scene helper toDrawingBuffer backgroundColor props h))
     = if negb (FxaaPass_isEnabled props) && toDrawingBuffer then []
       else [Texture_attachFramebuffer (depthTexturePrimitives this) (colorTarget this);
             Texture_attachFramebuffer (depthTextureVolumes this) (colorTarget this);
             Texture_attachFramebuffer (depthTexturePrimitives this) (colorTarget this)].
Proof.
  intros Hp Ht Hw. destruct (packed_targets_native this Hp Ht) as [Hdp Hdv].
  rewrite _render_trace, !List.filter_app.
  unfold strategy, _renderBlended, helper_calls, present_calls. rewrite Hw, Hp, Hdp, Hdv.
  destruct (FxaaPass_isEnabled props), toDrawingBuffer,
    (debug_isEnabled (helper_debug helper)), (handle_isEnabled (helper_handle helper)),
    (camera_isEnabled (helper_camera helper)); split; reflexivity.
Qed.

End Draw.

(** * Properties of the outline shader *)

Section OutlinesProperties.

Context {float : Type} `{GLFloatOrder float}.

Variables uNear uFar uMaxPossibleViewZDiff : float.
Variable dOrthographic : bool.
Variable tDepth : Z -> Z -> float.
Variable packUnitIntervalToRG : float -> float * float.

#[local] Abbreviation getDepth := (Outlines.getDepth tDepth).
#[local] Abbreviation getViewZ := (Outlines.getViewZ uNear uFar dOrthographic).
#[local] Abbreviation isBackground := Outlines.isBackground.
#[local] Abbreviation backgroundViewZ := (Outlines.backgroundViewZ uFar uMaxPossibleViewZDiff).
#[local] Abbreviation selfViewZ :=
  (Outlines.selfViewZ uNear uFar uMaxPossibleViewZDiff dOrthographic tDepth).
#[local] Abbreviation sampleViewZ :=
  (Outlines.sampleViewZ uNear uFar uMaxPossibleViewZDiff dOrthographic tDepth).
#[local] Abbreviation sample :=
  (Outlines.sample uNear uFar uMaxPossibleViewZDiff dOrthographic tDepth).
#[local] Abbreviation main_loop :=
  (Outlines.main_loop uNear uFar uMaxPossibleViewZDiff dOrthographic tDepth).
#[local] Abbreviation main :=
  (Outlines.main uNear uFar uMaxPossibleViewZDiff dOrthographic tDepth packUnitIntervalToRG).

Lemma fle_refl (a : float) : fle a a = true.
Proof. by destruct (fle_total a a). Qed.

Lemma fgt_irrefl (a : float) : fgt a a = false.
Proof. by rewrite fgt_fle, fle_refl. Qed.

(** A number below a bound is below everything at or above the bound. *)
Lemma fgt_across (a b c : float) :
  fge a c = true -> fge b c = false -> fgt a b = true.
Proof.
  rewrite !fge_fle, fgt_fle. intros Hca Hcb.
  destruct (fle a b) eqn:Hab; [|done].
  by rewrite (fle_trans _ _ _ Hca Hab) in Hcb.
Qed.

Lemma fle_below (b c d : float) :
  fge b c = false -> fle c d = true -> fle b d = true.
Proof.
  rewrite fge_fle. intros Hcb Hcd.
  destruct (fle_total b c) as [Hbc|Hcb']; [|congruence].
  by apply (fle_trans _ _ _ Hbc Hcd).
Qed.

(** C7. A pixel whose depth is [>= 0.99] is background, and its view-space Z
    is [uFar + 3.0 * uMaxPossibleViewZDiff], both as the centre pixel and as a
    sample of a neighbour. *)
Theorem background_viewZ (coords : Z * Z) :
  fge (getDepth coords) (lit (99 # 100)) = true ->
  isBackground (getDepth coords) = true
  /\ selfViewZ coords = fadd uFar (fmul (lit 3) uMaxPossibleViewZDiff)
  /\ sampleViewZ coords = fadd uFar (fmul (lit 3) uMaxPossibleViewZDiff).
Proof.
  intros Hd. unfold Outlines.selfViewZ, Outlines.sampleViewZ, Outlines.isBackground.
  by rewrite Hd.
Qed.

(** The flag only ever goes from 1 to 0: a step leaves the pair as it is or
    sets the flag to 0. *)
Lemma sample_cases coords st xy :
  sample coords st xy = st \/ fst (sample coords st xy) = lit 0.
Proof. unfold Outlines.sample. destruct (_ && _ && _); auto. Qed.

Lemma sample_keeps_zero coords st xy :
  fst st = lit 0 -> fst (sample coords st xy) = lit 0.
Proof. intros Hst. by destruct (sample_cases coords st xy) as [->| ->]. Qed.

Lemma fold_keeps_zero coords l st :
  fst st = lit 0 -> fst (fold_left (sample coords) l st) = lit 0.
Proof.
  revert st. induction l as [|xy l IH]; intros st Hst; [done|].
  simpl. by apply IH, sample_keeps_zero.
Qed.

(** On an image of one depth no step changes the pair. *)
Lemma sample_uniform d coords st xy :
  (forall p, getDepth p = d) -> sample coords st xy = st.
Proof.
  intros Hd. unfold Outlines.sample. rewrite !Hd, fgt_irrefl.
  by rewrite andb_false_r.
Qed.

Lemma fold_uniform d coords l st :
  (forall p, getDepth p = d) -> fold_left (sample coords) l st = st.
Proof.
  intros Hd. revert st. induction l as [|xy l IH]; intros st; [done|].
  simpl. by rewrite (sample_uniform d), IH.
Qed.

(** The step that samples a foreground pixel from a background pixel, while
    the flag is still 1, sets the flag to 0. *)
Lemma sample_foreground coords xy :
  isBackground (getDepth coords) = true ->
  isBackground (getDepth (fst coords + fst xy, snd coords + snd xy)) = false ->
  fgt (fabs (fsub backgroundViewZ
               (getViewZ (getDepth (fst coords + fst xy, snd coords + snd xy)))))
      uMaxPossibleViewZDiff = true ->
  fst (sample coords (lit 1, lit 1) xy) = lit 0.
Proof.
  intros Hself Hfg Hdiff. unfold Outlines.sample, Outlines.selfViewZ, Outlines.sampleViewZ.
  rewrite Hself, Hfg, Hdiff. unfold Outlines.isBackground in *.
  rewrite (fgt_across _ _ _ Hself Hfg). simpl snd.
  by rewrite (fle_below _ _ (lit 1) Hfg (fle_lit (99 # 100) 1 eq_refl)).
Qed.

Lemma fold_foreground coords xy l st :
  xy ∈ l ->
  fst st = lit 0 \/ st = (lit 1, lit 1) ->
  isBackground (getDepth coords) = true ->
  isBackground (getDepth (fst coords + fst xy, snd coords + snd xy)) = false ->
  fgt (fabs (fsub backgroundViewZ
               (getViewZ (getDepth (fst coords + fst xy, snd coords + snd xy)))))
      uMaxPossibleViewZDiff = true ->
  fst (fold_left (sample coords) l st) = lit 0.
Proof.
  intros Hin Hst Hself Hfg Hdiff. revert st Hst.
  induction l as [|xy' l IH]; intros st Hst; [by apply elem_of_nil in Hin|].
  simpl. destruct Hst as [Hzero| ->].
  { by apply fold_keeps_zero, sample_keeps_zero. }
  apply elem_of_cons in Hin as [<-|Hin].
  - by apply fold_keeps_zero, sample_foreground.
  - apply IH; [done|].
    destruct (sample_cases coords (lit 1, lit 1) xy') as [->|Hz]; auto.
Qed.

Lemma neighbour_in_window (dx dy : Z) :
  -1 <= dx <= 1 -> -1 <= dy <= 1 -> (dx, dy) ∈ Outlines.window.
Proof.
  intros Hx Hy.
  assert (Ex : dx = -1 \/ dx = 0 \/ dx = 1) by lia.
  assert (Ey : dy = -1 \/ dy = 0 \/ dy = 1) by lia.
  clear Hx Hy. unfold Outlines.window. simpl.
  destruct Ex as [Ex|[Ex|Ex]], Ey as [Ey|[Ey|Ey]]; subst dx dy; set_solver.
Qed.

(** C8. On a depth image of one depth every pixel gets the outline flag 1.
    A background pixel (depth [>= 0.99]) that has a foreground pixel [f] in
    its 3x3 window, the distance between the background view-space Z and the
    view-space Z of [f] exceeding [uMaxPossibleViewZDiff], gets the outline
    flag 0, whatever the other pixels are: so does every background pixel
    around a single foreground pixel. *)
Theorem outline_flags :
  (forall d, (forall p, getDepth p = d) ->
     forall coords, exists r g, main coords = (lit 1, r, g, lit 0))
  /\ (forall f coords,
        isBackground (getDepth f) = false ->
        fge (getDepth coords) (lit (99 # 100)) = true ->
        fgt (fabs (fsub backgroundViewZ (getViewZ (getDepth f))))
            uMaxPossibleViewZDiff = true ->
        -1 <= fst f - fst coords <= 1 ->
        -1 <= snd f - snd coords <= 1 ->
        exists r g, main coords = (lit 0, r, g, lit 0)).
Proof.
  split.
  - intros d Hd coords. unfold Outlines.main, Outlines.main_loop.
    rewrite (fold_uniform d _ _ _ Hd).
    destruct (packUnitIntervalToRG (lit 1)) as [r g]. by exists r, g.
  - intros f coords Hf Hbg Hdiff Hx Hy.
    assert (Ef : f = (fst coords + fst (fst f - fst coords, snd f - snd coords),
                      snd coords + snd (fst f - fst coords, snd f - snd coords))).
    { destruct f. simpl. f_equal; lia. }
    assert (Hflag : fst (main_loop coords) = lit 0).
    { unfold Outlines.main_loop.
      apply (fold_foreground coords (fst f - fst coords, snd f - snd coords)).
      - by apply neighbour_in_window.
      - by right.
      - done.
      - by rewrite <- Ef.
      - by rewrite <- Ef. }
    unfold Outlines.main. destruct (main_loop coords) as [o b]. simpl in Hflag. subst o.
    destruct (packUnitIntervalToRG b) as [r g]. by exists r, g.
Qed.

(** ** The depth written with the flag *)

(** The first two conditions of the [if] in the loop, for the texel at the
    offset [xy]: the view-space Z of the sample differs from the centre's by
    more than the threshold, and the sample is nearer than the centre. *)
#[local] Abbreviation occludes coords xy :=
  (fgt (fabs (fsub (selfViewZ coords)
                (sampleViewZ (fst coords + fst xy, snd coords + snd xy))))
     uMaxPossibleViewZDiff
   && fgt (getDepth coords) (getDepth (fst coords + fst xy, snd coords + snd xy))).

#[local] Abbreviation depth_at coords xy :=
  (getDepth (fst coords + fst xy, snd coords + snd xy)).

Lemma sample_step coords st xy :
  sample coords st xy
  = if occludes coords xy && fle (depth_at coords xy) (snd st)
    then (lit 0, depth_at coords xy) else st.
Proof. reflexivity. Qed.

(** The loop keeps in [bestDepth] a lower bound of its start value and of
    the depths of the occluding samples seen so far; it either never fires,
    or ends on the depth of an occluding sample with the flag 0. *)
Lemma fold_best coords l st :
  fle (snd (fold_left (sample coords) l st)) (snd st) = true
  /\ (forall xy, xy ∈ l -> occludes coords xy = true ->
      fle (snd (fold_left (sample coords) l st)) (depth_at coords xy) = true)
  /\ ((fold_left (sample coords) l st = st
       /\ forall xy, xy ∈ l -> occludes coords xy = true ->
          fle (depth_at coords xy) (snd st) = false)
      \/ (fst (fold_left (sample coords) l st) = lit 0
          /\ exists xy, xy ∈ l /\ occludes coords xy = true
             /\ snd (fold_left (sample coords) l st) = depth_at coords xy)).
Proof.
  revert st. induction l as [|xy' l IH]; intros st.
  { simpl. split; [apply fle_refl|]. split.
    - by intros xy Hin%elem_of_nil.
    - left. split; [done|]. by intros xy Hin%elem_of_nil. }
  simpl fold_left. pose proof (sample_step coords st xy') as Hstep.
  destruct (IH (sample coords st xy')) as (Hle & Hall & Hcase). clear IH.
  set (st' := sample coords st xy') in *. clearbody st'.
  destruct (occludes coords xy') eqn:Hocc; simpl andb in Hstep; cbv iota in Hstep.
  - destruct (fle (depth_at coords xy') (snd st)) eqn:Hfire; subst st';
      simpl in Hle, Hall, Hcase |- *.
    + split; [by eapply fle_trans|]. split.
      * intros xy [->|Hin]%elem_of_cons Hxy; [done|by apply Hall].
      * right. destruct Hcase as [[Heq _]|(Hz & xy & Hin & Hxy & Hd)].
        -- rewrite Heq. simpl. split; [done|]. exists xy'.
           split; [apply elem_of_cons; by left|]. by rewrite Hocc.
        -- split; [done|]. exists xy. split; [apply elem_of_cons; by right|done].
    + split; [done|]. split.
      * intros xy [->|Hin]%elem_of_cons Hxy; [|by apply Hall].
        destruct (fle_total (depth_at coords xy') (snd st)) as [Hc|Hc]; [congruence|].
        by eapply fle_trans.
      * destruct Hcase as [[Heq Hno]|(Hz & xy & Hin & Hxy & Hd)].
        -- left. split; [done|].
           intros xy [->|Hin]%elem_of_cons Hxy; [done|by apply Hno].
        -- right. split; [done|]. exists xy. split; [apply elem_of_cons; by right|done].
  - subst st'. split; [done|]. split.
    + intros xy [->|Hin]%elem_of_cons Hxy; [congruence|by apply Hall].
    + destruct Hcase as [[Heq Hno]|(Hz & xy & Hin & Hxy & Hd)].
      * left. split; [done|].
        intros xy [->|Hin]%elem_of_cons Hxy; [congruence|by apply Hno].
      * right. split; [done|]. exists xy. split; [apply elem_of_cons; by right|done].
Qed.

Lemma window_bounds (dx dy : Z) :
  (dx, dy) ∈ Outlines.window -> -1 <= dx <= 1 /\ -1 <= dy <= 1.
Proof.
  unfold Outlines.window. simpl. rewrite !elem_of_cons, elem_of_nil.
  intros H'. repeat destruct H' as [H'|H']; try done; injection H' as -> ->; lia.
Qed.

(** X12. The depth that [main] writes beside the flag is the depth of the
    nearest occluding texel of the 3x3 window, an occluding texel being one
    whose view-space Z differs from the centre's by more than
    [uMaxPossibleViewZDiff] and whose depth is below the centre's: the depth
    written is at most 1 and at most the depth of every occluding texel, and
    either the flag is 1, the depth written is 1 and no occluding texel has a
    depth of at most 1, or the flag is 0 and the depth written is the depth
    of an occluding texel of the window. *)
Theorem nearest_occluder (coords : Z * Z) :
  exists outline bestDepth,
    main coords = (outline, fst (packUnitIntervalToRG bestDepth),
                   snd (packUnitIntervalToRG bestDepth), lit 0)
    /\ fle bestDepth (lit 1) = true
    /\ (forall xy, xy ∈ Outlines.window -> occludes coords xy = true ->
        fle bestDepth (depth_at coords xy) = true)
    /\ ((outline = lit 1 /\ bestDepth = lit 1
         /\ forall xy, xy ∈ Outlines.window -> occludes coords xy = true ->
            fle (depth_at coords xy) (lit 1) = false)
        \/ (outline = lit 0
            /\ exists xy, xy ∈ Outlines.window /\ occludes coords xy = true
               /\ bestDepth = depth_at coords xy)).
Proof.
  destruct (fold_best coords Outlines.window (lit 1, lit 1)) as (Hle & Hall & Hcase).
  fold (main_loop coords) in Hle, Hall, Hcase.
  unfold Outlines.main. destruct (main_loop coords) as [o b]. simpl in Hle, Hall, Hcase.
  exists o, b. split; [by destruct (packUnitIntervalToRG b)|].
  split; [done|]. split; [done|].
  destruct Hcase as [[[= -> ->] Hno]|Hfired]; [left|right]; done.
Qed.

(** X13. A pixel that no texel of its 3x3 window is nearer than gets the
    flag 1 and the depth 1, whatever the view-space Z differences are:
    outlines are only drawn on the far side of a depth edge. *)
Theorem nearest_pixel_not_outlined (coords : Z * Z) :
  (forall dx dy, -1 <= dx <= 1 -> -1 <= dy <= 1 ->
     fgt (getDepth coords) (getDepth (fst coords + dx, snd coords + dy)) = false) ->
  main coords = (lit 1, fst (packUnitIntervalToRG (lit 1)),
                 snd (packUnitIntervalToRG (lit 1)), lit 0).
Proof.
  intros Hmin.
  destruct (fold_best coords Outlines.window (lit 1, lit 1)) as (_ & _ & Hcase).
  fold (main_loop coords) in Hcase. unfold Outlines.main.
  destruct Hcase as [[-> _]|(_ & [dx dy] & Hin & Hocc & _)].
  - by destruct (packUnitIntervalToRG (lit 1)).
  - apply window_bounds in Hin as [Hx Hy]. simpl in Hocc.
    rewrite (Hmin dx dy Hx Hy) in Hocc. by rewrite andb_false_r in Hocc.
Qed.

End OutlinesProperties.

(** * Properties of the gap test *)

Section NtcTubeProperties.

Variable SortedArray : Type.
Variable SortedArray_has : SortedArray -> option Z -> bool.

#[local] Abbreviation hasGapElements := (NtcTube.hasGapElements SortedArray SortedArray_has).
#[local] Abbreviation hasGapElements_from :=
  (NtcTube.hasGapElements_from SortedArray SortedArray_has).

Lemma hasGapElements_from_iff unit n xI :
  hasGapElements_from unit n xI = true
  <-> exists i, xI <= i < xI + Z.of_nat n
      /\ SortedArray_has (NtcTube.gapElements unit)
           (NtcTube.at_index (NtcTube.elements unit) i) = true.
Proof.
  revert xI. induction n as [|n IH]; intros xI.
  { simpl. split; [done|]. intros (i & Hi & _). lia. }
  cbn [NtcTube.hasGapElements_from].
  destruct (SortedArray_has _ (NtcTube.at_index _ xI)) eqn:Hhas.
  - split; [|done]. intros _. exists xI. split; [lia|done].
  - rewrite IH. split.
    + intros (i & Hi & Hgap). exists i. split; [lia|done].
    + intros (i & Hi & Hgap). exists i. split; [|done].
      destruct (decide (i = xI)) as [->|Hne]; [congruence|lia].
Qed.

(** X16. [hasGapElements(r, unit)] is true exactly when some index [xI]
    with [r.start <= xI < r.end] has its element among the gap elements of
    the unit; so it is false for a residue whose range is empty
    ([r.end <= r.start]), and it only reads the elements of the range. *)
Theorem hasGapElements_iff (r : NtcTube.Residue) (unit : NtcTube.Unit SortedArray) :
  (hasGapElements r unit = true
   <-> exists xI, NtcTube.start r <= xI < NtcTube.end_ r
       /\ SortedArray_has (NtcTube.gapElements unit)
            (NtcTube.at_index (NtcTube.elements unit) xI) = true)
  /\ (NtcTube.end_ r <= NtcTube.start r -> hasGapElements r unit = false).
Proof.
  assert (Hiff : hasGapElements r unit = true
            <-> exists xI, NtcTube.start r <= xI < NtcTube.end_ r
                /\ SortedArray_has (NtcTube.gapElements unit)
                     (NtcTube.at_index (NtcTube.elements unit) xI) = true).
  { unfold NtcTube.hasGapElements. rewrite hasGapElements_from_iff.
    split; intros (i & Hi & Hgap); exists i; (split; [lia|done]). }
  split; [done|]. intros Hempty.
  apply not_true_is_false. intros (i & Hi & _)%Hiff. lia.
Qed.

End NtcTubeProperties.

(** * The examples *)

#[local] Instance Q_GLFloatOrder : GLFloatOrder Q.
Proof.
  split; simpl.
  - intros a b c Hab%Qle_bool_iff Hbc%Qle_bool_iff. apply Qle_bool_iff.
    by apply Qle_trans with b.
  - intros a b. destruct (Qlt_le_dec a b) as [Hlt|Hle].
    + left. by apply Qle_bool_iff, Qlt_le_weak.
    + right. by apply Qle_bool_iff.
  - done.
  - done.
  - done.
Qed.

(** The three concrete draw passes are the ones the constructor builds. *)
Lemma new_DrawPass_packed :
  new_DrawPass (PostprocessingProps := Props) webgl_packed 800 600 false []
  = (Ok pass_packed, heap_packed, []).
Proof. reflexivity. Qed.

Lemma new_DrawPass_wboit :
  new_DrawPass (PostprocessingProps := Props) webgl_native 800 600 true []
  = (Ok pass_wboit, heap_wboit, []).
Proof. reflexivity. Qed.

Lemma new_DrawPass_packed_wboit :
  new_DrawPass (PostprocessingProps := Props) webgl_packed_wboit 800 600 true []
  = (Ok pass_packed_wboit, heap_packed_wboit, []).
Proof. reflexivity. Qed.

(** The draw pass built without depth textures, resized from 800 x 600 to
    1024 x 768. *)
Lemma setSize_correct_witness :
  wired pass_packed heap_packed = true
  /\ owned_sized pass_packed heap_packed 800 600 = true
  /\ exists h' : Heap,
       setSize (PostprocessingProps := Props) pass_packed 1024 768 heap_packed
       = (Ok tt, h', [])
       /\ owned_sized pass_packed h' 1024 768 = true
       /\ wired pass_packed h' = true
       /\ length h' = length heap_packed
       /\ (forall l, shape <$> h' !! l = shape <$> heap_packed !! l)
       /\ (1024 = 800 -> 768 = 600 -> h' = heap_packed).
Proof.
  split; [reflexivity|]. split; [reflexivity|].
  apply (setSize_correct (PostprocessingProps := Props) pass_packed heap_packed 800 600);
    reflexivity.
Defined.

(** A stereo frame on the draw pass without WBOIT. *)
Lemma render_never_wboit_witness :
  wboitEnabled pass_packed = false
  /\ (WboitPass_render ∉
        trace (render pass_packed (StereoCamera view0 view0) scene0 helper_off true 0 false
                 props_outline heap_packed)).
Proof.
  split; [reflexivity|].
  apply (render_never_wboit pass_packed (StereoCamera view0 view0) scene0 helper_off true 0
           false props_outline heap_packed).
  reflexivity.
Defined.

(** C4, as the claim states it, fails: the draw pass without WBOIT throws,
    but the message is not the one with "WBOIT" in capitals. *)
Lemma _renderWboit_message_counterexample :
  wboit pass_packed = None
  /\ result (_renderWboit pass_packed view0 scene0 0 props_off heap_packed)
     = Throw "expected wboit to be enabled"
  /\ result (_renderWboit pass_packed view0 scene0 0 props_off heap_packed)
     <> Throw "expected WBOIT to be enabled".
Proof. repeat split. discriminate. Qed.

(** C5, as the claim states it, fails in two ways on draw passes with packed
    depth.  A blended frame rendered straight to the drawing buffer makes no
    depth-only pass at all; and a frame of the WBOIT strategy attaches the
    depth textures to the framebuffer of the color target, and makes no
    depth-only pass either. *)
Lemma packedDepth_counterexample :
  (packedDepth pass_packed = true
   /\ Forall (fun e => is_renderDepth e = false)
        (trace (render pass_packed (MonoCamera view0) scene0 helper_off true 0 false
                  props_off heap_packed)))
  /\ (packedDepth pass_packed_wboit = true
      /\ (Texture_attachFramebuffer (depthTexturePrimitives pass_packed_wboit)
            (colorTarget pass_packed_wboit)
          ∈ trace (render pass_packed_wboit (MonoCamera view0) scene0 helper_off false 0
                     false props_off heap_packed_wboit))
      /\ Forall (fun e => is_renderDepth e = false)
           (trace (render pass_packed_wboit (MonoCamera view0) scene0 helper_off false 0
                     false props_off heap_packed_wboit))).
Proof.
  split; [split; [reflexivity|]|split; [reflexivity|split]].
  - cbv. repeat constructor.
  - cbv. set_solver.
  - cbv. repeat constructor.
Qed.

(** An offscreen frame on the draw pass with packed depth. *)
Lemma packedDepth_blended_depth_passes_witness :
  packedDepth pass_packed = true
  /\ packed_targets pass_packed = true
  /\ wboitEnabled pass_packed = false
  /\ Forall (fun e => is_attach e = false)
       (trace (render pass_packed (MonoCamera view0) scene0 helper_off false 0 false
                 props_off heap_packed)).
Proof.
  split; [reflexivity|]. split; [reflexivity|]. split; [reflexivity|].
  apply (packedDepth_blended_depth_passes pass_packed (MonoCamera view0) scene0 helper_off
           false 0 false props_off heap_packed); reflexivity.
Defined.

(** The WBOIT strategy with the outline effect switched on. *)
Lemma _renderWboit_postprocessing_order_witness :
  wboitEnabled pass_wboit = true
  /\ PostprocessingPass_isEnabled props_outline = true
  /\ exists pre post,
       trace (_renderWboit pass_wboit view0 scene0 0 props_outline heap_wboit)
       = pre
         ++ depthMerge_calls pass_wboit
         ++ [PostprocessingPass_render view0 false 0 props_outline;
             WboitPass_bind;
             Renderer_renderWboitTransparent (primitives scene0) view0
               (Some (depthTexture pass_wboit));
             Renderer_renderWboitTransparent (volumes scene0) view0
               (Some (depthTexture pass_wboit))]
         ++ post
       /\ Forall (fun e => is_transparent e = false) (pre ++ depthMerge_calls pass_wboit)
       /\ Forall (fun e => is_postprocessing e = false)
            (pre ++ depthMerge_calls pass_wboit ++ post)
       /\ Renderer_renderWboitOpaque (primitives scene0) view0 None ∈ pre
       /\ Renderer_renderWboitOpaque (volumes scene0) view0
            (Some (depthTexturePrimitives pass_wboit)) ∈ pre.
Proof.
  split; [reflexivity|]. split; [reflexivity|].
  apply (_renderWboit_postprocessing_order pass_wboit view0 scene0 0 props_outline heap_wboit);
    reflexivity.
Defined.

(** A view to the drawing buffer with antialiasing switched on. *)
Lemma antialiasing_renders_offscreen_witness :
  FxaaPass_isEnabled props_fxaa = true
  /\ wboitEnabled pass_packed = false
  /\ Forall (fun e => is_offscreen pass_packed e = true)
       (trace (_render pass_packed view0 scene0 helper_off true 0 props_fxaa heap_packed)).
Proof.
  split; [reflexivity|]. split; [reflexivity|].
  apply (antialiasing_renders_offscreen pass_packed view0 scene0 helper_off true 0 props_fxaa
           heap_packed); reflexivity.
Defined.

(** The background texel [(4, 4)] of [dot_image], with near plane 1, far
    plane 100 and a largest view-space Z difference of 1/10. *)
Lemma background_viewZ_witness :
  fge (Outlines.getDepth dot_image (4, 4)) (lit (99 # 100)) = true
  /\ Outlines.selfViewZ 1%Q 100%Q (1 # 10) false dot_image (4, 4)
     = fadd 100%Q (fmul (lit 3) (1 # 10))
  /\ Outlines.sampleViewZ 1%Q 100%Q (1 # 10) false dot_image (4, 4)
     = fadd 100%Q (fmul (lit 3) (1 # 10)).
Proof.
  split; [reflexivity|].
  apply (background_viewZ (float := Q) 1%Q 100%Q (1 # 10) false dot_image (4, 4)).
  reflexivity.
Defined.

(** A texel of [flat_image], and the background texel [(4, 6)] next to the
    foreground texel of [dot_image]. *)
Lemma outline_flags_witness :
  (exists r g,
     Outlines.main 1%Q 100%Q (1 # 10) false flat_image pack_first (3, 3)
     = (lit 1, r, g, lit 0))
  /\ (exists r g,
        Outlines.main 1%Q 100%Q (1 # 10) false dot_image pack_first (4, 6)
        = (lit 0, r, g, lit 0)).
Proof.
  split.
  - apply (proj1 (outline_flags (float := Q) 1%Q 100%Q (1 # 10) false flat_image pack_first)
             (1 # 2)).
    reflexivity.
  - apply (proj2 (outline_flags (float := Q) 1%Q 100%Q (1 # 10) false dot_image pack_first)
             (5, 5) (4, 6)).
    + reflexivity.
    + reflexivity.
    + reflexivity.
    + simpl; lia.
    + simpl; lia.
Defined.

(** One opaque and one transparent primitive, no helper, on the draw pass
    built at 800 x 600 without WBOIT. *)
Lemma blended_presentation_witness :
  wboitEnabled pass_packed = false
  /\ FxaaPass_isEnabled props_off = false
  /\ PostprocessingPass_isEnabled props_off = false
  /\ List.filter is_compute
       (trace (_render pass_packed view0 scene0 helper_off false 0 props_off heap_packed))
     = [ComputeRenderable_update (dm_renderItem (depthMerge pass_packed));
        ComputeRenderable_render (dm_renderItem (depthMerge pass_packed))].
Proof.
  split; [reflexivity|]. split; [reflexivity|]. split; [reflexivity|].
  apply (blended_presentation pass_packed view0 scene0 helper_off 0 props_off heap_packed);
    reflexivity.
Defined.

Lemma new_DrawPass_native :
  new_DrawPass (PostprocessingProps := Props) webgl_native 800 600 false []
  = (Ok pass_native, heap_native, []).
Proof. reflexivity. Qed.

(** A stereo frame on the draw pass built without depth textures. *)
Lemma render_frame_witness :
  heap_packed !! colorTarget pass_packed = Some (RenderTargetObj 800 600 1%nat)
  /\ render pass_packed (StereoCamera view0 view0) scene0 helper_off true 0 false
       props_outline heap_packed
     = (Ok tt, heap_packed,
        [Renderer_setTransparentBackground false; Renderer_setDrawingBufferSize 800 600]
        ++ concat (map (fun view =>
                          trace (_render pass_packed view scene0 helper_off true 0
                                   props_outline heap_packed))
                       [view0; view0])).
Proof.
  split; [reflexivity|].
  apply (render_frame pass_packed (StereoCamera view0 view0) scene0 helper_off true 0 false
           props_outline heap_packed 800 600 1%nat).
  reflexivity.
Defined.

(** The two flushes of a stereo frame with WBOIT. *)
Lemma render_flushes_witness :
  heap_wboit !! colorTarget pass_wboit = Some (RenderTargetObj 800 600 1%nat)
  /\ List.filter is_flush
       (trace (render pass_wboit (StereoCamera view0 view0) scene0 helper_off false 0 false
                 props_fxaa heap_wboit))
     = [Gl_flush; Gl_flush].
Proof.
  split; [reflexivity|].
  apply (render_flushes pass_wboit (StereoCamera view0 view0) scene0 helper_off false 0
           false props_fxaa heap_wboit 800 600 1%nat).
  reflexivity.
Defined.

(** The draw pass built with WBOIT, resized from 800 x 600 to 1024 x 768. *)
Lemma setSize_keeps_wiring_witness :
  owned_sized pass_wboit heap_wboit 800 600 = true
  /\ renderables_wired pass_wboit heap_wboit = true
  /\ exists h' : Heap,
       setSize (PostprocessingProps := Props) pass_wboit 1024 768 heap_wboit
       = (Ok tt, h', [])
       /\ renderables_wired pass_wboit h' = true
       /\ (forall t, texture_of h' t = texture_of heap_wboit t).
Proof.
  split; [reflexivity|]. split; [reflexivity|].
  apply (setSize_keeps_wiring (PostprocessingProps := Props) pass_wboit heap_wboit 800 600);
    reflexivity.
Defined.

(** The frame after resizing the draw pass built without depth textures. *)
Lemma render_after_setSize_witness :
  owned_sized pass_packed heap_packed 800 600 = true
  /\ exists (h' : Heap) tr,
       setSize (PostprocessingProps := Props) pass_packed 1024 768 heap_packed
       = (Ok tt, h', [])
       /\ render pass_packed (MonoCamera view0) scene0 helper_off true 0 false props_off h'
          = (Ok tt, h',
             Renderer_setTransparentBackground false
             :: Renderer_setDrawingBufferSize 1024 768 :: tr).
Proof.
  split; [reflexivity|].
  apply (render_after_setSize pass_packed (MonoCamera view0) scene0 helper_off true 0 false
           props_off heap_packed 800 600); reflexivity.
Defined.

(** A view with the outline pass enabled presents the post-processing
    target, whose texture is at location 14. *)
Lemma presented_target_witness :
  FxaaPass_isEnabled props_outline = false
  /\ renderables_wired pass_packed heap_packed = true
  /\ value_of heap_packed (tColor (cp_values (copy_stage pass_packed props_outline)))
     = 14%nat
  /\ texture_of heap_packed (getColorTarget pass_packed props_outline) = 14%nat.
Proof.
  split; [reflexivity|]. split; [reflexivity|].
  destruct (presented_target pass_packed view0 scene0 helper_off 0 props_outline heap_packed)
    as (pre & _ & Hcolor & _); [reflexivity|reflexivity|].
  split; [|reflexivity]. rewrite Hcolor. reflexivity.
Defined.

(** An offscreen and a direct view on the draw pass built with depth
    textures and without WBOIT. *)
Lemma native_depth_blended_witness :
  packedDepth pass_native = false
  /\ packed_targets pass_native = true
  /\ wboitEnabled pass_native = false
  /\ List.filter is_attach
       (trace (_render pass_native view0 scene0 helper_off false 0 props_off heap_native))
     = [Texture_attachFramebuffer 5%nat 2%nat; Texture_attachFramebuffer 6%nat 2%nat;
        Texture_attachFramebuffer 5%nat 2%nat].
Proof.
  split; [reflexivity|]. split; [reflexivity|]. split; [reflexivity|].
  exact (proj2 (native_depth_blended pass_native view0 scene0 helper_off false 0 props_off
                  heap_native eq_refl eq_refl eq_refl)).
Defined.

(** The background texel [(4, 6)] of [dot_image]: its nearest occluder is
    the foreground texel, at depth 1/2. *)
Lemma nearest_occluder_witness :
  exists outline bestDepth : Q,
    Outlines.main 1%Q 100%Q (1 # 10) false dot_image pack_first (4, 6)
    = (outline, fst (pack_first bestDepth), snd (pack_first bestDepth), lit 0)
    /\ fle bestDepth (lit 1) = true.
Proof.
  destruct (nearest_occluder (float := Q) 1%Q 100%Q (1 # 10) false dot_image pack_first
              (4, 6)) as (outline & bestDepth & Hmain & Hle & _).
  exists outline, bestDepth. split; assumption.
Defined.

(** The foreground texel [(5, 5)] of [dot_image] is the nearest of its
    window. *)
Lemma nearest_pixel_not_outlined_witness :
  (forall dx dy, -1 <= dx <= 1 -> -1 <= dy <= 1 ->
     fgt (Outlines.getDepth dot_image (5, 5))
       (Outlines.getDepth dot_image (fst (5, 5) + dx, snd (5, 5) + dy)) = false)
  /\ Outlines.main 1%Q 100%Q (1 # 10) false dot_image pack_first (5, 5)
     = (lit 1, fst (pack_first (lit 1)), snd (pack_first (lit 1)), lit 0).
Proof.
  assert (Hmin : forall dx dy, -1 <= dx <= 1 -> -1 <= dy <= 1 ->
            fgt (Outlines.getDepth dot_image (5, 5))
              (Outlines.getDepth dot_image (fst (5, 5) + dx, snd (5, 5) + dy)) = false).
  { intros dx dy Hx Hy.
    assert (Ex : dx = -1 \/ dx = 0 \/ dx = 1) by lia.
    assert (Ey : dy = -1 \/ dy = 0 \/ dy = 1) by lia.
    destruct Ex as [Ex|[Ex|Ex]], Ey as [Ey|[Ey|Ey]]; subst dx dy; reflexivity. }
  split; [exact Hmin|].
  apply (nearest_pixel_not_outlined (float := Q) 1%Q 100%Q (1 # 10) false dot_image
           pack_first (5, 5)).
  exact Hmin.
Defined.
